(** * sqlproxy: a database/sql driver that adds hooks to an existing driver

    Shallow embedding of [driver.go] (package [sqlproxy]) and the properties
    of its adapter layer.

    The adapter talks to two kinds of foreign code: the proxied
    [database/sql] handles ([*sql.DB], [*sql.Stmt], [*sql.Rows]) and the two
    user callbacks of [Driver].  Both are taken as arbitrary functions over an
    abstract external world [E]; every call the adapter makes into them is
    appended to a trace, so that "is called", "is called once" and "is called
    before" are statements about that trace.  Go slices live in a heap of
    interface cells, so that copying a slice ([castValues]) and handing a
    slice to foreign code are distinguishable from sharing it. *)

From Stdlib Require Import ZArith Lia.
From stdpp Require Import list strings.

(** ** Go values *)

(** Heap addresses: the index of a cell holding one interface value. *)
Definition loc := nat.

(** Dynamic values of [interface{}] / [driver.Value]. *)
Inductive any :=
| ANil                                 (* the nil interface *)
| AInt (n : Z)                         (* int64 *)
| ABool (b : bool)
| AString (s : string)
| APtr (l : loc)                       (* *interface{}: address of a cell *)
| ASlice (base : loc) (len : nat).     (* []interface{} stored in an interface *)

#[global] Instance any_eq_dec : EqDecision any.
Proof. solve_decision. Defined.

(** Go's [error] interface; [None] is the nil error. *)
Inductive error :=
| io_EOF
| errors_New (msg : string).

#[global] Instance error_eq_dec : EqDecision error.
Proof. solve_decision. Defined.

(** A slice header: first cell and length. *)
Record slice := mkSlice { sl_base : loc; sl_len : nat }.

(** The heap: cell [l] is the [l]-th element; allocation appends. *)
Abbreviation heap := (list any).

(** The elements of a slice, as the heap holds them. *)
Definition slice_read (h : heap) (s : slice) : list any :=
  take (sl_len s) (drop (sl_base s) h).

(** All cells of the slice are allocated. *)
Definition slice_valid (h : heap) (s : slice) : Prop :=
  sl_base s + sl_len s <= length h.

(** The address lies inside the slice. *)
Definition in_slice (s : slice) (l : loc) : Prop :=
  sl_base s <= l < sl_base s + sl_len s.

(** ** Handles of the proxied database/sql package

    [*sql.DB], [*sql.Stmt], [*sql.Rows] and [*sql.Tx] are pointers into the
    proxied package: [None] is the nil pointer, [Some n] an opaque handle. *)
Definition sql_DB := nat.
Definition sql_Stmt := nat.
Definition sql_Rows := nat.
Definition sql_Tx := nat.

(** [sql.Result]: last insert id and rows affected. *)
Definition sql_Result : Type := Z * Z.

(** ** Calls into foreign code *)
Inductive Event :=
| EvSqlOpen (driverName dataSource : string)
| EvBeforePrepareHook (query : string)
| EvDBPrepare (db : option sql_DB) (query : string)
| EvDBClose (db : option sql_DB)
| EvDBBegin (db : option sql_DB)
| EvStmtClose (st : option sql_Stmt)
| EvBeforeQueryHook (query : string) (args : slice) (vals : list any)
| EvStmtExec (st : option sql_Stmt) (args : list any)
| EvStmtQuery (st : option sql_Stmt) (args : list any)
| EvRowsColumns (r : option sql_Rows)
| EvRowsClose (r : option sql_Rows)
| EvRowsNext (r : option sql_Rows)
| EvRowsScan (r : option sql_Rows) (dest : slice) (vals : list any).

#[global] Instance slice_eq_dec : EqDecision slice.
Proof. solve_decision. Defined.

#[global] Instance Event_eq_dec : EqDecision Event.
Proof. solve_decision. Defined.

(** The proxied package, as the adapter uses it.  Functions that are handed a
    slice also get the heap; a variadic parameter list built at the call site
    is passed by value.  The functions are total: a foreign call is taken to
    return.  In Go a method called on a nil [*sql.Stmt] or [*sql.Rows]
    panics instead, so a statement below that says what a call on a handle
    returns is about handles that are not nil. *)
Record Backend (E : Type) := {
  sql_Open : string -> string -> E -> (option sql_DB * option error) * E;
  db_Prepare : option sql_DB -> string -> E -> (option sql_Stmt * option error) * E;
  db_Close : option sql_DB -> E -> option error * E;
  db_Begin : option sql_DB -> E -> (option sql_Tx * option error) * E;
  stmt_Close : option sql_Stmt -> E -> option error * E;
  stmt_Exec : option sql_Stmt -> list any -> heap -> E ->
              (option sql_Result * option error) * heap * E;
  stmt_Query : option sql_Stmt -> list any -> heap -> E ->
               (option sql_Rows * option error) * heap * E;
  rows_Columns : option sql_Rows -> E -> (list string * option error) * E;
  rows_Close : option sql_Rows -> E -> option error * E;
  rows_Next : option sql_Rows -> E -> bool * E;
  rows_Err : option sql_Rows -> E -> option error;
  rows_Scan : option sql_Rows -> slice -> heap -> E -> option error * heap * E
}.

Arguments sql_Open {E} _ _ _ _.
Arguments db_Prepare {E} _ _ _ _.
Arguments db_Close {E} _ _ _.
Arguments db_Begin {E} _ _ _.
Arguments stmt_Close {E} _ _ _.
Arguments stmt_Exec {E} _ _ _ _ _.
Arguments stmt_Query {E} _ _ _ _ _.
Arguments rows_Columns {E} _ _ _.
Arguments rows_Close {E} _ _ _.
Arguments rows_Next {E} _ _ _.
Arguments rows_Err {E} _ _ _.
Arguments rows_Scan {E} _ _ _ _ _.

(** ** The adapter's data *)

(** [type Driver struct]: a nil hook is [None]. *)
Record Driver (E : Type) := {
  ProxiedDriverName : string;
  BeforePrepareHook : option (string -> E -> (string * option error) * E);
  BeforeQueryHook : option (string -> slice -> heap -> E -> heap * E)
}.

Arguments ProxiedDriverName {E} _.
Arguments BeforePrepareHook {E} _.
Arguments BeforeQueryHook {E} _.

(** [type connection struct] *)
Record connection (E : Type) := mkConnection {
  conn_driver : Driver E;
  conn_db : option sql_DB
}.

Arguments mkConnection {E} _ _.
Arguments conn_driver {E} _.
Arguments conn_db {E} _.

(** [type statement struct] *)
Record statement (E : Type) := mkStatement {
  stmt_driver : Driver E;
  stmt_stmt : option sql_Stmt;
  stmt_query : string
}.

Arguments mkStatement {E} _ _ _.
Arguments stmt_driver {E} _.
Arguments stmt_stmt {E} _.
Arguments stmt_query {E} _.

(** [type resultRows struct] *)
Record resultRows := mkResultRows { rr_rows : option sql_Rows }.

(** ** Machine state and the monad of adapter code *)

Record State (E : Type) := mkState {
  st_heap : heap;
  st_world : E;
  st_trace : list Event
}.

Arguments mkState {E} _ _ _.
Arguments st_heap {E} _.
Arguments st_world {E} _.
Arguments st_trace {E} _.

(** A Go function either returns or panics with a value. *)
Inductive outcome (A : Type) :=
| Done (a : A)
| Panicked (e : error).

Arguments Done {A} _.
Arguments Panicked {A} _.

Definition M (E A : Type) : Type := State E -> outcome A * State E.

(** Sequencing uses stdpp's monad notation: [x ← m; k] runs [m], stops at a
    panic, and otherwise continues with [k]. *)
#[global] Instance M_ret {E} : MRet (M E) := fun A a s => (Done a, s).

#[global] Instance M_bind {E} : MBind (M E) := fun A B k m s =>
  match m s with
  | (Done a, s') => k a s'
  | (Panicked e, s') => (Panicked e, s')
  end.

Definition panic {E A} (e : error) : M E A := fun s => (Panicked e, s).

(** A call into foreign code that sees only the external world. *)
Definition call {E A} (ev : Event) (f : E -> A * E) : M E A :=
  fun s =>
    let '(a, w) := f (st_world s) in
    (Done a, mkState (st_heap s) w (st_trace s ++ [ev])).

(** A call into foreign code that is handed a slice: it may read and write
    cells.  The event records what the cells hold when the call is made. *)
Definition call_heap {E A} (ev : heap -> Event) (f : heap -> E -> A * heap * E) : M E A :=
  fun s =>
    let '(a, h, w) := f (st_heap s) (st_world s) in
    (Done a, mkState h w (st_trace s ++ [ev (st_heap s)])).

Definition index_out_of_range : error :=
  errors_New "runtime error: index out of range".

(** [make([]interface{}, n)]: [n] fresh cells holding nil. *)
Definition make_slice {E} (n : nat) : M E slice :=
  fun s =>
    (Done (mkSlice (length (st_heap s)) n),
     mkState (st_heap s ++ replicate n ANil) (st_world s) (st_trace s)).

(** [s[idx]] *)
Definition load {E} (s : slice) (idx : nat) : M E any :=
  fun st =>
    if idx <? sl_len s then
      match st_heap st !! (sl_base s + idx) with
      | Some v => (Done v, st)
      | None => (Panicked index_out_of_range, st)
      end
    else (Panicked index_out_of_range, st).

(** [s[idx] = v] *)
Definition store {E} (s : slice) (idx : nat) (v : any) : M E unit :=
  fun st =>
    if idx <? sl_len s then
      (Done tt, mkState (<[sl_base s + idx := v]> (st_heap st)) (st_world st) (st_trace st))
    else (Panicked index_out_of_range, st).

(** ** utils *)

(** The body of [for idx, arg := range values { result[idx] = arg }], with
    [n] iterations left. *)
Fixpoint castValues_loop {E} (values result : slice) (idx n : nat) : M E unit :=
  match n with
  | 0 => mret tt
  | S n' =>
      arg ← load values idx;
      store result idx arg;;
      castValues_loop values result (S idx) n'
  end.

(** [func castValues(values []driver.Value) []interface{}] *)
Definition castValues {E} (values : slice) : M E slice :=
  result ← make_slice (sl_len values);
  castValues_loop values result 0 (sl_len values);;
  mret result.

(** ** The adapter *)

Section Adapter.
Context {E : Type} (B : Backend E).

(** *** driver *)

(** [func (d *Driver) Open(dataSource string) (driver.Conn, error)] *)
Definition Open (d : Driver E) (dataSource : string)
  : M E (option (connection E) * option error) :=
  '(db, err) ← call (EvSqlOpen (ProxiedDriverName d) dataSource)
                     (sql_Open B (ProxiedDriverName d) dataSource);
  match err with
  | Some e => mret (None, Some e)
  | None => mret (Some (mkConnection d db), None)
  end.

(** *** connection *)

(** [func (c *connection) Prepare(query string) (driver.Stmt, error)].
    [err] starts out nil, so the test after the hook is also passed when
    no hook is configured. *)
Definition Prepare (c : connection E) (query : string)
  : M E (option (statement E) * option error) :=
  '(query, err) ← match BeforePrepareHook (conn_driver c) with
                   | Some hook => call (EvBeforePrepareHook query) (hook query)
                   | None => mret (query, None)
                   end;
  match err with
  | Some e => mret (None, Some e)
  | None =>
      '(stmt, err) ← call (EvDBPrepare (conn_db c) query)
                           (db_Prepare B (conn_db c) query);
      mret (Some (mkStatement (conn_driver c) stmt query), err)
  end.

(** [func (c *connection) Close() error] *)
Definition connection_Close (c : connection E) : M E (option error) :=
  call (EvDBClose (conn_db c)) (db_Close B (conn_db c)).

(** [func (c *connection) Begin() (driver.Tx, error)]: the [*sql.Tx] is
    converted to the interface [driver.Tx], which is therefore never the
    nil interface (it may hold a nil pointer). *)
Definition Begin (c : connection E) : M E (option (option sql_Tx) * option error) :=
  '(tx, err) ← call (EvDBBegin (conn_db c)) (db_Begin B (conn_db c));
  mret (Some tx, err).

(** *** statement *)

(** [func (s *statement) Close() error] *)
Definition statement_Close (s : statement E) : M E (option error) :=
  call (EvStmtClose (stmt_stmt s)) (stmt_Close B (stmt_stmt s)).

(** [func (s *statement) NumInput() int] *)
Definition NumInput (s : statement E) : Z := -1.

(** [func (d *Driver) execBeforeQueryHook(query string, args []interface{})] *)
Definition execBeforeQueryHook (d : Driver E) (query : string) (args : slice) : M E unit :=
  match BeforeQueryHook d with
  | Some hook =>
      call_heap (fun h => EvBeforeQueryHook query args (slice_read h args))
                (fun h w => let '(h', w') := hook query args h w in (tt, h', w'))
  | None => mret tt
  end.

(** The parameter list of a variadic call [f(args)] written without [...]:
    one parameter, the slice itself. *)
Definition variadic_of_slice (args : slice) : list any :=
  [ASlice (sl_base args) (sl_len args)].

(** [func (s *statement) Exec(values []driver.Value) (driver.Result, error)] *)
Definition Exec (s : statement E) (values : slice)
  : M E (option sql_Result * option error) :=
  args ← castValues values;
  execBeforeQueryHook (stmt_driver s) (stmt_query s) args;;
  call_heap (fun _ => EvStmtExec (stmt_stmt s) (variadic_of_slice args))
            (stmt_Exec B (stmt_stmt s) (variadic_of_slice args)).

(** [func (s *statement) Query(values []driver.Value) (driver.Rows, error)] *)
Definition Query (s : statement E) (values : slice)
  : M E (option resultRows * option error) :=
  args ← castValues values;
  execBeforeQueryHook (stmt_driver s) (stmt_query s) args;;
  '(rows, err) ← call_heap (fun _ => EvStmtQuery (stmt_stmt s) (variadic_of_slice args))
                            (stmt_Query B (stmt_stmt s) (variadic_of_slice args));
  mret (Some (mkResultRows rows), err).

(** *** rows *)

(** [func (r *resultRows) Columns() []string] *)
Definition Columns (r : resultRows) : M E (list string) :=
  '(result, err) ← call (EvRowsColumns (rr_rows r)) (rows_Columns B (rr_rows r));
  match err with
  | Some e => panic e
  | None => mret result
  end.

(** [func (r *resultRows) Close() error] *)
Definition resultRows_Close (r : resultRows) : M E (option error) :=
  call (EvRowsClose (rr_rows r)) (rows_Close B (rr_rows r)).

(** [func (r *resultRows) Next(dest []driver.Value) error]: here the slice
    is spread with [...], so [Scan] is handed the slice [castValues] made. *)
Definition Next (r : resultRows) (dest : slice) : M E (option error) :=
  ok ← call (EvRowsNext (rr_rows r)) (rows_Next B (rr_rows r));
  if ok : bool then
    targets ← castValues dest;
    call_heap (fun h => EvRowsScan (rr_rows r) targets (slice_read h targets))
              (rows_Scan B (rr_rows r) targets)
  else mret (Some io_EOF).

(** *** Stages of the functions above that the statements below refer to *)

(** The hook stage of [Prepare]: the text and error it leaves in [query]
    and [err], and the world afterwards. *)
Definition prepare_hook_stage (d : Driver E) (query : string) (w : E)
  : (string * option error) * E :=
  match BeforePrepareHook d with
  | Some hook => hook query w
  | None => ((query, None), w)
  end.

Definition prepare_hook_events (d : Driver E) (query : string) : list Event :=
  match BeforePrepareHook d with
  | Some _ => [EvBeforePrepareHook query]
  | None => []
  end.

(** The state [execBeforeQueryHook] leaves; it always returns. *)
Definition after_query_hook (d : Driver E) (query : string) (args : slice)
    (s : State E) : State E :=
  match BeforeQueryHook d with
  | Some hook =>
      mkState (hook query args (st_heap s) (st_world s)).1
              (hook query args (st_heap s) (st_world s)).2
              (st_trace s ++ [EvBeforeQueryHook query args (slice_read (st_heap s) args)])
  | None => s
  end.

(** The slice [castValues] returns when the heap is [h]. *)
Definition copy_of (h : heap) (values : slice) : slice :=
  mkSlice (length h) (sl_len values).

End Adapter.

(** The query texts handed to the proxied [Prepare], in call order. *)
Fixpoint prepared_texts (t : list Event) : list string :=
  match t with
  | [] => []
  | EvDBPrepare _ q :: t' => q :: prepared_texts t'
  | _ :: t' => prepared_texts t'
  end.

(** ** Calling the proxied driver directly, and through the adapter *)

Section Roundtrip.
Context {E : Type} (B : Backend E).

(** What an application does without the adapter: [sql.Open], then
    [db.Prepare(query)], then [stmt.Exec(values...)]. *)
Definition direct_roundtrip (driverName dataSource query : string) (values : slice)
  : M E (option sql_Result * option error) :=
  '(db, err) ← call (EvSqlOpen driverName dataSource) (sql_Open B driverName dataSource);
  match err with
  | Some e => mret (None, Some e)
  | None =>
      '(stmt, err) ← call (EvDBPrepare db query) (db_Prepare B db query);
      match err with
      | Some e => mret (None, Some e)
      | None =>
          call_heap (fun h => EvStmtExec stmt (slice_read h values))
                    (fun h w => stmt_Exec B stmt (slice_read h values) h w)
      end
  end.

(** The same three steps through the adapter's [Open], [Prepare], [Exec]. *)
Definition proxied_roundtrip (d : Driver E) (dataSource query : string) (values : slice)
  : M E (option sql_Result * option error) :=
  '(c, err) ← Open B d dataSource;
  match c, err with
  | Some c, None =>
      '(s, err) ← Prepare B c query;
      match s, err with
      | Some s, None => Exec B s values
      | _, _ => mret (None, err)
      end
  | _, _ => mret (None, err)
  end.

End Roundtrip.

(** ** Assumptions about foreign code used below *)

(** [Scan] assigns through the pointers it is given and may use the slice
    holding them; it writes no other allocated cell. *)
Definition scan_writes_through_targets {E} (B : Backend E) : Prop :=
  forall r targets h w err h' w',
    rows_Scan B r targets h w = (err, h', w') ->
    forall l, l < length h -> ~ in_slice targets l ->
              APtr l ∉ slice_read h targets ->
              h' !! l = h !! l.

(** The guard database/sql applies to the parameters of a statement before it
    calls the driver: [if want != -1 && len(args) != want] is an error, where
    [want] is what the driver's [NumInput] returned. *)
Definition argument_count_accepted (want : Z) (nargs : nat) : bool :=
  negb (negb (want =? -1)%Z && negb (Z.of_nat nargs =? want)%Z).

(** ** A small in-memory database behind the database/sql interface

    Used to run the adapter on concrete inputs.  It checks the parameters of
    a statement the way database/sql does (scalar values, as many as there
    are placeholders), delivers rows through [Scan] by writing through the
    pointers it is given, and reports a broken connection through [Err]. *)
Module MemDB.

Record world := mkWorld {
  prepared : list string;              (* text of each prepared statement *)
  table : list (list any);             (* rows a query returns *)
  pending : list (list any);           (* rows the cursor still has to deliver *)
  current : list any;                  (* the row [Scan] reads *)
  failure : option error;              (* set once the connection is broken *)
  hooklog : list (string * list any)   (* what a recording hook has seen *)
}.

Definition set_prepared (w : world) (p : list string) : world :=
  mkWorld p (table w) (pending w) (current w) (failure w) (hooklog w).

Definition set_cursor (w : world) (p : list (list any)) (c : list any) : world :=
  mkWorld (prepared w) (table w) p c (failure w) (hooklog w).

Definition set_hooklog (w : world) (l : list (string * list any)) : world :=
  mkWorld (prepared w) (table w) (pending w) (current w) (failure w) l.

(** The character [?]. *)
Definition placeholder : Ascii.ascii := Ascii.ascii_of_nat 63.

Fixpoint count_placeholders (q : string) : nat :=
  match q with
  | EmptyString => 0
  | String c q' =>
      (if Ascii.eqb c placeholder then 1 else 0) + count_placeholders q'
  end.

Definition is_scalar (v : any) : bool :=
  match v with
  | ANil | AInt _ | ABool _ | AString _ => true
  | APtr _ | ASlice _ _ => false
  end.

(** Parameter checking shared by Exec and Query. *)
Definition check_args (w : world) (st : option sql_Stmt) (args : list any) : option error :=
  match failure w with
  | Some e => Some e
  | None =>
      match st ≫= (λ i, prepared w !! i) with
      | None => Some (errors_New "sql: statement is closed")
      | Some q =>
          if negb (forallb is_scalar args)
          then Some (errors_New "sql: converting argument: unsupported type")
          else if negb (length args =? count_placeholders q)
          then Some (errors_New "sql: wrong number of arguments")
          else None
      end
  end.

(** [Scan] assigns column by column and stops at the first target that is
    not a pointer. *)
Fixpoint scan_into (targets row : list any) (h : heap) : option error * heap :=
  match targets, row with
  | APtr l :: targets', v :: row' => scan_into targets' row' (<[l := v]> h)
  | _ :: _, _ :: _ => (Some (errors_New "sql: Scan error: destination not a pointer"), h)
  | [], [] => (None, h)
  | _, _ => (Some (errors_New "sql: wrong number of destination arguments in Scan"), h)
  end.

Definition backend : Backend world := {|
  sql_Open name ds w :=
    if String.eqb name "memdb" then ((Some 0, None), w)
    else ((None, Some (errors_New "sql: unknown driver")), w);
  db_Prepare db q w :=
    match failure w with
    | Some e => ((None, Some e), w)
    | None => ((Some (length (prepared w)), None), set_prepared w (prepared w ++ [q]))
    end;
  db_Close db w := (failure w, w);
  db_Begin db w :=
    match failure w with
    | Some e => ((None, Some e), w)
    | None => ((Some 0, None), w)
    end;
  stmt_Close st w := (failure w, w);
  stmt_Exec st args h w :=
    match check_args w st args with
    | Some e => ((None, Some e), h, w)
    | None => ((Some (0, 1)%Z, None), h, w)
    end;
  stmt_Query st args h w :=
    match check_args w st args with
    | Some e => ((None, Some e), h, w)
    | None => ((Some 0, None), h, set_cursor w (table w) [])
    end;
  rows_Columns r w :=
    match failure w with
    | Some e => (([], Some e), w)
    | None => ((["value"], None), w)
    end;
  rows_Close r w := (failure w, w);
  rows_Next r w :=
    match failure w, pending w with
    | None, row :: rest => (true, set_cursor w rest row)
    | _, _ => (false, w)
    end;
  rows_Err r w := failure w;
  rows_Scan r targets h w :=
    let '(err, h') := scan_into (slice_read h targets) (current w) h in
    (err, h', w)
|}.

(** A driver without hooks. *)
Definition plain : Driver world :=
  {| ProxiedDriverName := "memdb"; BeforePrepareHook := None; BeforeQueryHook := None |}.

(** The hook of the package documentation, recording instead of printing. *)
Definition record_query (query : string) (args : slice) (h : heap) (w : world)
  : heap * world :=
  (h, set_hooklog w (hooklog w ++ [(query, slice_read h args)])).

(** A pre-prepare hook that rejects the empty query and replaces every
    other one by [SELECT 1]. *)
Definition select_one (query : string) (w : world) : (string * option error) * world :=
  if String.eqb query "" then (("", Some (errors_New "empty query")), w)
  else (("SELECT 1", None), w).

Definition hooked : Driver world :=
  {| ProxiedDriverName := "memdb";
     BeforePrepareHook := Some select_one;
     BeforeQueryHook := Some record_query |}.

Definition logging : Driver world :=
  {| ProxiedDriverName := "memdb";
     BeforePrepareHook := None;
     BeforeQueryHook := Some record_query |}.

(** A fresh database holding one row. *)
Definition w0 : world := mkWorld [] [[AInt 1]] [] [] None [].

Definition conn_lost : error := errors_New "driver: bad connection".

(** A database whose connection broke while a cursor was open: the first of
    two rows has been delivered, the second never will be. *)
Definition broken : world :=
  mkWorld [] [[AInt 1]; [AInt 2]] [[AInt 2]] [AInt 1] (Some conn_lost) [].

Definition start (h : heap) (w : world) : State world := mkState h w [].

Definition update_x : string := "UPDATE t SET x=? WHERE id=?".

End MemDB.

(** A hook that does more than observe: it overwrites the first element of
    the slice it is shown with nil. *)
Module MemHooks.

Definition redact_first (query : string) (args : slice) (h : heap) (w : MemDB.world)
  : heap * MemDB.world :=
  (if 0 <? sl_len args then <[sl_base args := ANil]> h else h, w).

Definition redacting : Driver MemDB.world :=
  {| ProxiedDriverName := "memdb";
     BeforePrepareHook := None;
     BeforeQueryHook := Some redact_first |}.

End MemHooks.

(** The in-memory database with a cursor that can be closed.  As in
    database/sql, [Close] on a cursor succeeds, a closed cursor has no next
    row, and [Columns] and [Scan] on it report [sql: Rows are closed];
    [Columns] on an open cursor does not fail. *)
Module ClosedRows.

(** The database, and whether its cursor has been closed. *)
Definition world : Type := MemDB.world * bool.

Definition rows_are_closed : error := errors_New "sql: Rows are closed".

Definition on_db {A} (f : MemDB.world -> A * MemDB.world) (w : world) : A * world :=
  let '(a, d) := f w.1 in (a, (d, w.2)).

Definition on_db_heap {A} (f : heap -> MemDB.world -> A * heap * MemDB.world)
    (closed : bool) (h : heap) (w : world) : A * heap * world :=
  let '(a, h', d) := f h w.1 in (a, h', (d, closed)).

Definition backend : Backend world := {|
  sql_Open name ds := on_db (sql_Open MemDB.backend name ds);
  db_Prepare db q := on_db (db_Prepare MemDB.backend db q);
  db_Close db := on_db (db_Close MemDB.backend db);
  db_Begin db := on_db (db_Begin MemDB.backend db);
  stmt_Close st := on_db (stmt_Close MemDB.backend st);
  stmt_Exec st args h w := on_db_heap (stmt_Exec MemDB.backend st args) w.2 h w;
  stmt_Query st args h w := on_db_heap (stmt_Query MemDB.backend st args) false h w;
  rows_Columns r w :=
    if w.2 then (([], Some rows_are_closed), w) else ((["value"], None), w);
  rows_Close r w := (None, (w.1, true));
  rows_Next r w := if w.2 then (false, w) else on_db (rows_Next MemDB.backend r) w;
  rows_Err r w := rows_Err MemDB.backend r w.1;
  rows_Scan r targets h w :=
    if w.2 then (Some rows_are_closed, h, w)
    else on_db_heap (rows_Scan MemDB.backend r targets) false h w
|}.

(** An open cursor over one row. *)
Definition open_cursor : world := (MemDB.set_cursor MemDB.w0 [[AInt 1]] [], false).

(** The same cursor after [Close]. *)
Definition closed_cursor : world := (MemDB.set_cursor MemDB.w0 [[AInt 1]] [], true).

End ClosedRows.

(** ** Slices and the heap *)

Lemma slice_read_lookup (h : heap) (s : slice) (i : nat) :
  slice_read h s !! i = if decide (i < sl_len s) then h !! (sl_base s + i) else None.
Proof.
  unfold slice_read. rewrite lookup_take. case_decide; [|done].
  by rewrite lookup_drop.
Qed.

Lemma slice_read_length (h : heap) (s : slice) :
  slice_valid h s -> length (slice_read h s) = sl_len s.
Proof.
  unfold slice_valid, slice_read. intros Hv.
  rewrite length_take, length_drop. lia.
Qed.

(** Two heaps that agree on the cells of a slice give the same elements. *)
Lemma slice_read_ext (h h' : heap) (s : slice) :
  (forall l, in_slice s l -> h' !! l = h !! l) ->
  slice_read h' s = slice_read h s.
Proof.
  intros Hag. apply list_eq. intros i. rewrite !slice_read_lookup.
  case_decide; [|done]. apply Hag. unfold in_slice. lia.
Qed.

(** Allocation at the end of the heap leaves every slice as it was. *)
Lemma slice_read_app_l (h h' : heap) (s : slice) :
  slice_valid h s -> slice_read (h ++ h') s = slice_read h s.
Proof.
  intros Hv. apply slice_read_ext. intros l [_ Hl].
  apply lookup_app_l. unfold slice_valid in Hv. lia.
Qed.

Lemma slice_read_fresh (h vs : heap) :
  slice_read (h ++ vs) (mkSlice (length h) (length vs)) = vs.
Proof.
  unfold slice_read. simpl. rewrite drop_app_length. apply firstn_all.
Qed.

(** ** Running adapter code *)

Lemma bind_done {E A B} (m : M E A) (k : A -> M E B) s a s' :
  m s = (Done a, s') -> (m ≫= k) s = k a s'.
Proof. intros H. unfold mbind, M_bind. by rewrite H. Qed.

Section CastValues.
Context {E : Type}.

(** Loop invariant of [castValues]: after [idx] iterations the first [idx]
    cells of [result] hold copies and the rest is still nil. *)
Lemma castValues_loop_spec (values : slice) (h0 : heap) (w : E) t n idx :
  slice_valid h0 values ->
  idx + n = sl_len values ->
  castValues_loop values (mkSlice (length h0) (sl_len values)) idx n
    (mkState (h0 ++ take idx (slice_read h0 values) ++ replicate n ANil) w t)
  = (Done tt, mkState (h0 ++ slice_read h0 values) w t).
Proof.
  intros Hv. revert idx. induction n as [|n IH]; intros idx Hn.
  - simpl. rewrite app_nil_r, firstn_all2; [done|].
    rewrite slice_read_length by done. lia.
  - assert (Hlt : idx < sl_len values) by lia.
    destruct (lookup_lt_is_Some_2 h0 (sl_base values + idx)) as [v Hvl].
    { unfold slice_valid in Hv. lia. }
    assert (Hrd : slice_read h0 values !! idx = Some v).
    { rewrite slice_read_lookup. by case_decide. }
    cbn [castValues_loop].
    erewrite bind_done; cycle 1.
    { unfold load. cbn [st_heap]. apply Nat.ltb_lt in Hlt as ->.
      rewrite lookup_app_l by (apply lookup_lt_Some in Hvl; done).
      by rewrite Hvl. }
    erewrite bind_done; cycle 1.
    { unfold store. cbn [st_heap st_world st_trace sl_len sl_base].
      apply Nat.ltb_lt in Hlt as ->. reflexivity. }
    rewrite <- (IH (S idx)) by lia. f_equal. f_equal.
    rewrite insert_app_r. f_equal.
    rewrite (take_S_r _ _ _ Hrd), <- app_assoc. simpl.
    assert (Hlen : length (take idx (slice_read h0 values)) = idx).
    { rewrite length_take, slice_read_length by done. lia. }
    replace idx with (length (take idx (slice_read h0 values)) + 0) at 1 by lia.
    by rewrite insert_app_r.
Qed.

(** [castValues] never panics on an allocated slice; it returns a slice of
    fresh cells at the end of the heap that hold the elements of [values],
    and touches nothing else. *)
Lemma castValues_spec (values : slice) (h : heap) (w : E) t :
  slice_valid h values ->
  castValues values (mkState h w t)
  = (Done (mkSlice (length h) (sl_len values)),
     mkState (h ++ slice_read h values) w t).
Proof.
  intros Hv. unfold castValues.
  erewrite bind_done; cycle 1.
  { unfold make_slice. cbn [st_heap st_world st_trace]. reflexivity. }
  erewrite bind_done; cycle 1.
  { apply (castValues_loop_spec values h w t (sl_len values) 0 Hv). lia. }
  reflexivity.
Qed.

End CastValues.

(** ** What each adapter function does, as an equation *)

Lemma prepared_texts_app (t1 t2 : list Event) :
  prepared_texts (t1 ++ t2) = prepared_texts t1 ++ prepared_texts t2.
Proof.
  induction t1 as [|ev t1 IH]; [done|].
  destruct ev; simpl; by rewrite ?IH.
Qed.

Section AdapterSpec.
Context {E : Type} (B : Backend E).

Lemma call_eq {A} (ev : Event) (f : E -> A * E) h w t :
  call ev f (mkState h w t)
  = (Done (f w).1, mkState h (f w).2 (t ++ [ev])).
Proof. unfold call. simpl. by destruct (f w). Qed.

Lemma call_heap_eq {A} (ev : heap -> Event) (f : heap -> E -> A * heap * E) h w t :
  call_heap ev f (mkState h w t)
  = (Done (f h w).1.1, mkState (f h w).1.2 (f h w).2 (t ++ [ev h])).
Proof. unfold call_heap. simpl. by destruct (f h w) as [[??]?]. Qed.

Lemma Prepare_eq (c : connection E) (query : string) h w t :
  Prepare B c query (mkState h w t)
  = let '((query', err), w1) := prepare_hook_stage (conn_driver c) query w in
    let t1 := t ++ prepare_hook_events (conn_driver c) query in
    match err with
    | Some e => (Done (None, Some e), mkState h w1 t1)
    | None =>
        let '((stmt, err'), w2) := db_Prepare B (conn_db c) query' w1 in
        (Done (Some (mkStatement (conn_driver c) stmt query'), err'),
         mkState h w2 (t1 ++ [EvDBPrepare (conn_db c) query']))
    end.
Proof.
  unfold Prepare, prepare_hook_stage, prepare_hook_events.
  destruct (BeforePrepareHook (conn_driver c)) as [hook|].
  - erewrite bind_done by apply call_eq.
    destruct (hook query w) as [[query' [e|]] w1]; simpl; [done|].
    erewrite bind_done by apply call_eq.
    by destruct (db_Prepare B (conn_db c) query' w1) as [[stmt err'] w2].
  - simpl. rewrite app_nil_r.
    unfold mbind, M_bind, mret, M_ret. rewrite call_eq.
    by destruct (db_Prepare B (conn_db c) query w) as [[stmt err'] w2].
Qed.

Lemma execBeforeQueryHook_eq (d : Driver E) (query : string) (args : slice) s :
  execBeforeQueryHook d query args s = (Done tt, after_query_hook d query args s).
Proof.
  unfold execBeforeQueryHook, after_query_hook.
  destruct (BeforeQueryHook d) as [hook|]; [|done].
  destruct s as [h w t]. rewrite call_heap_eq. simpl.
  by destruct (hook query args h w).
Qed.

Lemma copy_of_read (h : heap) (values : slice) :
  slice_valid h values ->
  slice_read (h ++ slice_read h values) (copy_of h values) = slice_read h values.
Proof.
  intros Hv. unfold copy_of.
  rewrite <- (slice_read_length h values Hv). apply slice_read_fresh.
Qed.

Lemma Exec_eq (s : statement E) (values : slice) h w t :
  slice_valid h values ->
  Exec B s values (mkState h w t)
  = let args := copy_of h values in
    let s2 := after_query_hook (stmt_driver s) (stmt_query s) args
                (mkState (h ++ slice_read h values) w t) in
    call_heap (fun _ => EvStmtExec (stmt_stmt s) (variadic_of_slice args))
              (stmt_Exec B (stmt_stmt s) (variadic_of_slice args)) s2.
Proof.
  intros Hv. unfold Exec.
  erewrite bind_done by (by apply castValues_spec).
  erewrite bind_done by apply execBeforeQueryHook_eq.
  reflexivity.
Qed.

Lemma Query_eq (s : statement E) (values : slice) h w t :
  slice_valid h values ->
  Query B s values (mkState h w t)
  = let args := copy_of h values in
    let s2 := after_query_hook (stmt_driver s) (stmt_query s) args
                (mkState (h ++ slice_read h values) w t) in
    let r := stmt_Query B (stmt_stmt s) (variadic_of_slice args)
               (st_heap s2) (st_world s2) in
    (Done (Some (mkResultRows r.1.1.1), r.1.1.2),
     mkState r.1.2 r.2
       (st_trace s2 ++ [EvStmtQuery (stmt_stmt s) (variadic_of_slice args)])).
Proof.
  intros Hv. unfold Query.
  erewrite bind_done by (by apply castValues_spec).
  erewrite bind_done by apply execBeforeQueryHook_eq.
  set (s2 := after_query_hook _ _ _ _). destruct s2 as [h2 w2 t2] eqn:Hs2.
  erewrite bind_done by apply call_heap_eq. simpl.
  by destruct (stmt_Query B _ _ h2 w2) as [[[rows err] h3] w3].
Qed.

Lemma Next_eq (r : resultRows) (dest : slice) h w t :
  slice_valid h dest ->
  Next B r dest (mkState h w t)
  = let n := rows_Next B (rr_rows r) w in
    if n.1 then
      let targets := copy_of h dest in
      let h1 := h ++ slice_read h dest in
      let sc := rows_Scan B (rr_rows r) targets h1 n.2 in
      (Done sc.1.1,
       mkState sc.1.2 sc.2
         (t ++ [EvRowsNext (rr_rows r);
                EvRowsScan (rr_rows r) targets (slice_read h dest)]))
    else (Done (Some io_EOF), mkState h n.2 (t ++ [EvRowsNext (rr_rows r)])).
Proof.
  intros Hv. unfold Next.
  erewrite bind_done by apply call_eq.
  destruct (rows_Next B (rr_rows r) w) as [[|] w1]; simpl; [|done].
  erewrite bind_done by (by apply castValues_spec).
  rewrite call_heap_eq. rewrite copy_of_read by done.
  by rewrite <- app_assoc.
Qed.

Lemma Columns_eq (r : resultRows) h w t :
  Columns B r (mkState h w t)
  = let c := rows_Columns B (rr_rows r) w in
    (match c.1.2 with Some e => Panicked e | None => Done c.1.1 end,
     mkState h c.2 (t ++ [EvRowsColumns (rr_rows r)])).
Proof.
  unfold Columns. erewrite bind_done by apply call_eq.
  by destruct (rows_Columns B (rr_rows r) w) as [[cols [e|]] w1].
Qed.

Lemma Open_eq (d : Driver E) (dataSource : string) h w t :
  Open B d dataSource (mkState h w t)
  = let o := sql_Open B (ProxiedDriverName d) dataSource w in
    (Done (match o.1.2 with
           | Some e => (None, Some e)
           | None => (Some (mkConnection d o.1.1), None)
           end),
     mkState h o.2 (t ++ [EvSqlOpen (ProxiedDriverName d) dataSource])).
Proof.
  unfold Open. erewrite bind_done by apply call_eq.
  by destruct (sql_Open B _ _ w) as [[db [e|]] w1].
Qed.

Lemma Begin_eq (c : connection E) h w t :
  Begin B c (mkState h w t)
  = let b := db_Begin B (conn_db c) w in
    (Done (Some b.1.1, b.1.2), mkState h b.2 (t ++ [EvDBBegin (conn_db c)])).
Proof.
  unfold Begin. erewrite bind_done by apply call_eq.
  by destruct (db_Begin B (conn_db c) w) as [[tx err] w1].
Qed.

End AdapterSpec.

Lemma scan_into_frame (targets row : list any) (h : heap) err h' (l : loc) :
  MemDB.scan_into targets row h = (err, h') ->
  APtr l ∉ targets ->
  h' !! l = h !! l.
Proof.
  revert row h. induction targets as [|tg targets IH]; intros row h Hs Hl.
  - destruct row; simpl in Hs; by inversion Hs.
  - apply not_elem_of_cons in Hl as [Hne Hl].
    destruct row as [|v row].
    + destruct tg; simpl in Hs; by inversion Hs.
    + destruct tg; simpl in Hs; try (by inversion Hs).
      rewrite (IH _ _ Hs Hl). apply list_lookup_insert_ne. congruence.
Qed.

Lemma MemDB_scan_writes_through_targets :
  scan_writes_through_targets MemDB.backend.
Proof.
  intros r targets h w err h' w' Hs l _ _ Hl. simpl in Hs.
  destruct (MemDB.scan_into _ _ h) as [err0 h0] eqn:Hsc.
  inversion Hs; subst. by eapply scan_into_frame.
Qed.

(** ** The adapter on the in-memory database *)

(** A hook that replaces every query by [SELECT 1]: the database prepares
    [SELECT 1]. *)
Example prepare_with_rewriting_hook :
  MemDB.prepared
    (st_world (Prepare MemDB.backend (mkConnection MemDB.hooked (Some 0))
                       "SELECT * FROM t" (MemDB.start [] MemDB.w0)).2)
  = ["SELECT 1"].
Proof. reflexivity. Qed.

(** A hook that records its arguments: one entry per [Exec], holding the
    statement text and the caller's values. *)
Example exec_with_recording_hook :
  MemDB.hooklog
    (st_world (Exec MemDB.backend (mkStatement MemDB.logging (Some 0) MemDB.update_x)
                    (mkSlice 0 2)
                    (MemDB.start [AInt 5; AInt 1]
                       (MemDB.set_prepared MemDB.w0 [MemDB.update_x]))).2)
  = [(MemDB.update_x, [AInt 5; AInt 1])].
Proof. reflexivity. Qed.

(** The destination database/sql passes holds no pointers: [Scan] refuses
    the copies and the row stays in the cursor. *)
Example next_with_plain_destination :
  Next MemDB.backend (mkResultRows (Some 0)) (mkSlice 0 1)
       (MemDB.start [ANil] (MemDB.set_cursor MemDB.w0 [[AInt 1]] []))
  = (Done (Some (errors_New "sql: Scan error: destination not a pointer")),
     mkState [ANil; ANil] (MemDB.set_cursor MemDB.w0 [] [AInt 1])
       [EvRowsNext (Some 0); EvRowsScan (Some 0) (mkSlice 1 1) [ANil]]).
Proof. reflexivity. Qed.

(** A destination whose first element points at its second: [Scan] assigns
    through the copied pointer, which the caller supplied. *)
Example next_with_self_pointing_destination :
  st_heap (Next MemDB.backend (mkResultRows (Some 0)) (mkSlice 0 2)
                (MemDB.start [APtr 1; ANil]
                   (MemDB.set_cursor MemDB.w0 [[AInt 1; AInt 2]] []))).2
  = [APtr 1; AInt 1; APtr 1; ANil].
Proof. reflexivity. Qed.

(** ** Properties of the adapter *)

(** C1: when a pre-prepare hook is configured and returns a rewritten text
    without error, the proxied driver's prepare is called once, after the
    hook, with exactly the rewritten text; no other text reaches it; and the
    statement returned holds the rewritten text. *)
Theorem C1_prepare_forwards_rewritten_text {E} (B : Backend E)
    (c : connection E) (query : string) (s : State E)
    (hook : string -> E -> (string * option error) * E) (query' : string) (w1 : E) :
  BeforePrepareHook (conn_driver c) = Some hook ->
  hook query (st_world s) = ((query', None), w1) ->
  exists stmt err s',
    db_Prepare B (conn_db c) query' w1 = ((stmt, err), st_world s') /\
    Prepare B c query s
      = (Done (Some (mkStatement (conn_driver c) stmt query'), err), s') /\
    st_trace s'
      = st_trace s ++ [EvBeforePrepareHook query; EvDBPrepare (conn_db c) query'] /\
    prepared_texts (st_trace s') = prepared_texts (st_trace s) ++ [query'].
Proof.
  intros Hhook Hrun. destruct s as [h w t]. simpl in Hrun.
  rewrite Prepare_eq. unfold prepare_hook_stage, prepare_hook_events.
  rewrite Hhook, Hrun.
  destruct (db_Prepare B (conn_db c) query' w1) as [[stmt err] w2] eqn:Hp.
  eexists stmt, err, _. split; [|split; [reflexivity|split]]; simpl.
  - done.
  - by rewrite <- app_assoc.
  - by rewrite !prepared_texts_app, app_nil_r.
Qed.

Lemma C1_prepare_forwards_rewritten_text_witness :
  exists stmt err s',
    db_Prepare MemDB.backend (Some 0) "SELECT 1" MemDB.w0 = ((stmt, err), st_world s') /\
    Prepare MemDB.backend (mkConnection MemDB.hooked (Some 0)) "SELECT * FROM t"
            (MemDB.start [] MemDB.w0)
      = (Done (Some (mkStatement MemDB.hooked stmt "SELECT 1"), err), s') /\
    st_trace s'
      = [] ++ [EvBeforePrepareHook "SELECT * FROM t"; EvDBPrepare (Some 0) "SELECT 1"] /\
    prepared_texts (st_trace s') = prepared_texts [] ++ ["SELECT 1"].
Proof.
  apply (C1_prepare_forwards_rewritten_text MemDB.backend
           (mkConnection MemDB.hooked (Some 0)) "SELECT * FROM t"
           (MemDB.start [] MemDB.w0) MemDB.select_one "SELECT 1" MemDB.w0);
    reflexivity.
Defined.

(** C2: when the pre-prepare hook returns an error, [Prepare] returns no
    statement and that same error, and the proxied driver's prepare is not
    called: the hook is the only foreign code that ran. *)
Theorem C2_prepare_hook_error_stops {E} (B : Backend E)
    (c : connection E) (query : string) (s : State E)
    (hook : string -> E -> (string * option error) * E)
    (query' : string) (e : error) (w1 : E) :
  BeforePrepareHook (conn_driver c) = Some hook ->
  hook query (st_world s) = ((query', Some e), w1) ->
  Prepare B c query s
    = (Done (None, Some e),
       mkState (st_heap s) w1 (st_trace s ++ [EvBeforePrepareHook query])) /\
  prepared_texts (st_trace (Prepare B c query s).2) = prepared_texts (st_trace s).
Proof.
  intros Hhook Hrun. destruct s as [h w t]. simpl in Hrun.
  rewrite Prepare_eq. unfold prepare_hook_stage, prepare_hook_events.
  rewrite Hhook, Hrun. simpl. split; [done|].
  by rewrite prepared_texts_app, app_nil_r.
Qed.

Lemma C2_prepare_hook_error_stops_witness :
  Prepare MemDB.backend (mkConnection MemDB.hooked (Some 0)) "" (MemDB.start [] MemDB.w0)
    = (Done (None, Some (errors_New "empty query")),
       mkState [] MemDB.w0 ([] ++ [EvBeforePrepareHook ""])) /\
  prepared_texts
    (st_trace (Prepare MemDB.backend (mkConnection MemDB.hooked (Some 0)) ""
                       (MemDB.start [] MemDB.w0)).2)
  = prepared_texts [].
Proof.
  apply (C2_prepare_hook_error_stops MemDB.backend
           (mkConnection MemDB.hooked (Some 0)) "" (MemDB.start [] MemDB.w0)
           MemDB.select_one "" (errors_New "empty query") MemDB.w0);
    reflexivity.
Defined.

(** C3: when a pre-execute hook is configured, [Exec] and [Query] each apply
    it exactly once, to the text the statement holds and to a slice whose
    elements are those of the caller's slice, and only then call the proxied
    statement, which runs on the heap and world that one application left;
    the trace gains the hook event followed by the proxied call, nothing
    else. *)
Theorem C3_query_hook_once_before_driver {E} (B : Backend E)
    (s : statement E) (values : slice) (st : State E)
    (hook : string -> slice -> heap -> E -> heap * E) :
  BeforeQueryHook (stmt_driver s) = Some hook ->
  slice_valid (st_heap st) values ->
  let vals := slice_read (st_heap st) values in
  let args := copy_of (st_heap st) values in
  let h1 := st_heap st ++ vals in
  let hk := hook (stmt_query s) args h1 (st_world st) in
  let hooked := st_trace st ++ [EvBeforeQueryHook (stmt_query s) args vals] in
  let ex := stmt_Exec B (stmt_stmt s) (variadic_of_slice args) hk.1 hk.2 in
  let qu := stmt_Query B (stmt_stmt s) (variadic_of_slice args) hk.1 hk.2 in
  slice_read h1 args = vals /\
  Exec B s values st
  = (Done ex.1.1,
     mkState ex.1.2 ex.2
       (hooked ++ [EvStmtExec (stmt_stmt s) (variadic_of_slice args)])) /\
  Query B s values st
  = (Done (Some (mkResultRows qu.1.1.1), qu.1.1.2),
     mkState qu.1.2 qu.2
       (hooked ++ [EvStmtQuery (stmt_stmt s) (variadic_of_slice args)])).
Proof.
  intros Hhook Hv. destruct st as [h w t]. simpl in Hv.
  cbn [st_heap st_world st_trace]. cbv zeta.
  rewrite Exec_eq, Query_eq by done. cbv zeta. unfold after_query_hook.
  rewrite Hhook. cbn [st_heap st_world st_trace]. rewrite call_heap_eq.
  rewrite copy_of_read by done. by repeat split.
Qed.

Lemma C3_query_hook_once_before_driver_witness :
  let s := mkStatement MemDB.logging (Some 0) MemDB.update_x in
  let db := MemDB.set_prepared MemDB.w0 [MemDB.update_x] in
  let st := MemDB.start [AInt 5; AInt 1] db in
  let seen := MemDB.set_hooklog db [(MemDB.update_x, [AInt 5; AInt 1])] in
  slice_valid (st_heap st) (mkSlice 0 2) /\
  Exec MemDB.backend s (mkSlice 0 2) st
  = (Done (stmt_Exec MemDB.backend (Some 0) [ASlice 2 2]
                     [AInt 5; AInt 1; AInt 5; AInt 1] seen).1.1,
     mkState [AInt 5; AInt 1; AInt 5; AInt 1] seen
       [EvBeforeQueryHook MemDB.update_x (mkSlice 2 2) [AInt 5; AInt 1];
        EvStmtExec (Some 0) [ASlice 2 2]]).
Proof.
  assert (Hv : slice_valid [AInt 5; AInt 1] (mkSlice 0 2)).
  { unfold slice_valid. simpl. lia. }
  split; [exact Hv|].
  exact (proj1 (proj2
           (C3_query_hook_once_before_driver MemDB.backend
              (mkStatement MemDB.logging (Some 0) MemDB.update_x) (mkSlice 0 2)
              (MemDB.start [AInt 5; AInt 1] (MemDB.set_prepared MemDB.w0 [MemDB.update_x]))
              MemDB.record_query eq_refl Hv))).
Defined.

(** Whatever the caller passes, the proxied statement is called with one
    parameter: the slice [castValues] made. *)
Lemma Exec_forwards_one_parameter {E} (B : Backend E)
    (s : statement E) (values : slice) (st : State E) :
  slice_valid (st_heap st) values ->
  exists t', st_trace (Exec B s values st).2
             = t' ++ [EvStmtExec (stmt_stmt s)
                        [ASlice (length (st_heap st)) (sl_len values)]].
Proof.
  intros Hv. destruct st as [h w t]. simpl in Hv.
  rewrite Exec_eq by done. cbv zeta.
  destruct (after_query_hook _ _ _ _) as [h2 w2 t2].
  rewrite call_heap_eq. by exists t2.
Qed.

(** C4, at the parameters [5, 1] of [UPDATE t SET x=? WHERE id=?] and with
    no hook configured: the caller's slice holds [5; 1], but the parameter
    list the proxied statement receives is a single slice value, not
    [5; 1]; the statement text is forwarded as it is. *)
Theorem C4_exec_forwards_slice_as_single_parameter :
  let s := mkStatement MemDB.plain (Some 0) MemDB.update_x in
  let st := MemDB.start [AInt 5; AInt 1] (MemDB.set_prepared MemDB.w0 [MemDB.update_x]) in
  slice_read (st_heap st) (mkSlice 0 2) = [AInt 5; AInt 1] /\
  st_trace (Exec MemDB.backend s (mkSlice 0 2) st).2 = [EvStmtExec (Some 0) [ASlice 2 2]] /\
  st_trace (Query MemDB.backend s (mkSlice 0 2) st).2 = [EvStmtQuery (Some 0) [ASlice 2 2]] /\
  [ASlice 2 2] <> [AInt 5; AInt 1].
Proof. repeat split; try reflexivity. discriminate. Qed.

(** C5 fails at [Columns]: on a cursor that has been closed the proxied
    [Columns] reports [sql: Rows are closed], and the adapter does not
    return that error, it panics with it. *)
Lemma C5_columns_error_is_not_returned :
  let r := mkResultRows (Some 0) in
  let st := mkState [] ClosedRows.open_cursor [] in
  let st' := (resultRows_Close ClosedRows.backend r st).2 in
  (resultRows_Close ClosedRows.backend r st).1 = Done None /\
  (rows_Columns ClosedRows.backend (rr_rows r) (st_world st')).1.2
  = Some ClosedRows.rows_are_closed /\
  (Columns ClosedRows.backend r st').1 = Panicked ClosedRows.rows_are_closed /\
  forall cols, (Columns ClosedRows.backend r st').1 <> Done cols.
Proof. repeat split; try reflexivity. intros cols. discriminate. Qed.

(** C5, amended: every adapter function that has an error result makes its
    foreign calls once each and returns the error of the hook or of the
    proxied call as it is, leaving the state that call left ([Open],
    [Prepare], [Close] on connection, statement and cursor, [Begin], [Exec],
    [Query], and [Next] when a row is available, whose result is [Scan]'s);
    [Columns], which has no error result, panics with the error of the
    proxied [Columns]. *)
Theorem C5_errors_pass_through {E} (B : Backend E) :
  (forall d dataSource (st : State E) db e w',
      sql_Open B (ProxiedDriverName d) dataSource (st_world st) = ((db, Some e), w') ->
      Open B d dataSource st
      = (Done (None, Some e),
         mkState (st_heap st) w'
           (st_trace st ++ [EvSqlOpen (ProxiedDriverName d) dataSource]))) /\
  (forall c query (st : State E) query' e w1,
      prepare_hook_stage (conn_driver c) query (st_world st) = ((query', Some e), w1) ->
      Prepare B c query st
      = (Done (None, Some e),
         mkState (st_heap st) w1
           (st_trace st ++ prepare_hook_events (conn_driver c) query))) /\
  (forall c query (st : State E) query' w1 stmt err w2,
      prepare_hook_stage (conn_driver c) query (st_world st) = ((query', None), w1) ->
      db_Prepare B (conn_db c) query' w1 = ((stmt, err), w2) ->
      Prepare B c query st
      = (Done (Some (mkStatement (conn_driver c) stmt query'), err),
         mkState (st_heap st) w2
           ((st_trace st ++ prepare_hook_events (conn_driver c) query)
            ++ [EvDBPrepare (conn_db c) query']))) /\
  (forall c (st : State E),
      let p := db_Close B (conn_db c) (st_world st) in
      connection_Close B c st
      = (Done p.1, mkState (st_heap st) p.2 (st_trace st ++ [EvDBClose (conn_db c)]))) /\
  (forall c (st : State E),
      let p := db_Begin B (conn_db c) (st_world st) in
      Begin B c st
      = (Done (Some p.1.1, p.1.2),
         mkState (st_heap st) p.2 (st_trace st ++ [EvDBBegin (conn_db c)]))) /\
  (forall s (st : State E),
      let p := stmt_Close B (stmt_stmt s) (st_world st) in
      statement_Close B s st
      = (Done p.1, mkState (st_heap st) p.2 (st_trace st ++ [EvStmtClose (stmt_stmt s)]))) /\
  (forall s values (st : State E),
      slice_valid (st_heap st) values ->
      let args := copy_of (st_heap st) values in
      let s2 := after_query_hook (stmt_driver s) (stmt_query s) args
                  (mkState (st_heap st ++ slice_read (st_heap st) values)
                           (st_world st) (st_trace st)) in
      let p := stmt_Exec B (stmt_stmt s) (variadic_of_slice args)
                 (st_heap s2) (st_world s2) in
      Exec B s values st
      = (Done p.1.1,
         mkState p.1.2 p.2
           (st_trace s2 ++ [EvStmtExec (stmt_stmt s) (variadic_of_slice args)]))) /\
  (forall s values (st : State E),
      slice_valid (st_heap st) values ->
      let args := copy_of (st_heap st) values in
      let s2 := after_query_hook (stmt_driver s) (stmt_query s) args
                  (mkState (st_heap st ++ slice_read (st_heap st) values)
                           (st_world st) (st_trace st)) in
      let p := stmt_Query B (stmt_stmt s) (variadic_of_slice args)
                 (st_heap s2) (st_world s2) in
      Query B s values st
      = (Done (Some (mkResultRows p.1.1.1), p.1.1.2),
         mkState p.1.2 p.2
           (st_trace s2 ++ [EvStmtQuery (stmt_stmt s) (variadic_of_slice args)]))) /\
  (forall r (st : State E),
      let p := rows_Close B (rr_rows r) (st_world st) in
      resultRows_Close B r st
      = (Done p.1, mkState (st_heap st) p.2 (st_trace st ++ [EvRowsClose (rr_rows r)]))) /\
  (forall r dest (st : State E) w1,
      slice_valid (st_heap st) dest ->
      rows_Next B (rr_rows r) (st_world st) = (true, w1) ->
      let targets := copy_of (st_heap st) dest in
      let p := rows_Scan B (rr_rows r) targets
                 (st_heap st ++ slice_read (st_heap st) dest) w1 in
      Next B r dest st
      = (Done p.1.1,
         mkState p.1.2 p.2
           (st_trace st ++ [EvRowsNext (rr_rows r);
                            EvRowsScan (rr_rows r) targets
                              (slice_read (st_heap st) dest)]))) /\
  (forall r (st : State E) cols e w',
      rows_Columns B (rr_rows r) (st_world st) = ((cols, Some e), w') ->
      Columns B r st
      = (Panicked e,
         mkState (st_heap st) w' (st_trace st ++ [EvRowsColumns (rr_rows r)]))).
Proof.
  repeat apply conj.
  - intros d ds [h w t] db e w' Ho. simpl in Ho. rewrite Open_eq. simpl. by rewrite Ho.
  - intros c q [h w t] q' e w1 Hs. simpl in Hs. rewrite Prepare_eq. by rewrite Hs.
  - intros c q [h w t] q' w1 stmt err w2 Hs Hp. simpl in Hs.
    rewrite Prepare_eq. by rewrite Hs, Hp.
  - intros c [h w t]. unfold connection_Close. by rewrite call_eq.
  - intros c [h w t]. by rewrite Begin_eq.
  - intros s [h w t]. unfold statement_Close. by rewrite call_eq.
  - intros s values [h w t] Hv. simpl in Hv. cbn [st_heap st_world st_trace].
    rewrite Exec_eq by done. cbv zeta.
    destruct (after_query_hook _ _ _ _) as [h2 w2 t2].
    by rewrite call_heap_eq.
  - intros s values [h w t] Hv. simpl in Hv. cbn [st_heap st_world st_trace].
    by rewrite Query_eq.
  - intros r [h w t]. unfold resultRows_Close. by rewrite call_eq.
  - intros r dest [h w t] w1 Hv Hn. simpl in Hv, Hn. cbn [st_heap st_world st_trace].
    rewrite Next_eq by done. cbv zeta. by rewrite Hn.
  - intros r [h w t] cols e w' Hc. simpl in Hc. rewrite Columns_eq. cbv zeta.
    by rewrite Hc.
Qed.

Lemma C5_errors_pass_through_witness :
  (Prepare MemDB.backend (mkConnection MemDB.hooked (Some 0)) ""
           (MemDB.start [] MemDB.w0)).1 = Done (None, Some (errors_New "empty query"))
  /\ (Exec MemDB.backend (mkStatement MemDB.plain (Some 0) "SELECT 1") (mkSlice 0 0)
            (MemDB.start [] MemDB.broken)).1 = Done (None, Some MemDB.conn_lost)
  /\ (Next MemDB.backend (mkResultRows (Some 0)) (mkSlice 0 1)
            (MemDB.start [ANil] (MemDB.set_cursor MemDB.w0 [[AInt 1]] []))).1
      = Done (Some (errors_New "sql: Scan error: destination not a pointer"))
  /\ (Columns ClosedRows.backend (mkResultRows (Some 0))
               (mkState [] ClosedRows.closed_cursor [])).1
      = Panicked ClosedRows.rows_are_closed.
Proof.
  assert (Hv0 : slice_valid [] (mkSlice 0 0)) by (unfold slice_valid; simpl; lia).
  assert (Hv1 : slice_valid [ANil] (mkSlice 0 1)) by (unfold slice_valid; simpl; lia).
  split; [|split; [|split]].
  - exact (f_equal fst
             (proj1 (proj2 (C5_errors_pass_through MemDB.backend))
                (mkConnection MemDB.hooked (Some 0)) "" (MemDB.start [] MemDB.w0)
                "" (errors_New "empty query") MemDB.w0 eq_refl)).
  - exact (f_equal fst
             (proj1 (proj2 (proj2 (proj2 (proj2 (proj2 (proj2
                (C5_errors_pass_through MemDB.backend)))))))
                (mkStatement MemDB.plain (Some 0) "SELECT 1") (mkSlice 0 0)
                (MemDB.start [] MemDB.broken) Hv0)).
  - exact (f_equal fst
             (proj1 (proj2 (proj2 (proj2 (proj2 (proj2 (proj2 (proj2 (proj2 (proj2
                (C5_errors_pass_through MemDB.backend))))))))))
                (mkResultRows (Some 0)) (mkSlice 0 1)
                (MemDB.start [ANil] (MemDB.set_cursor MemDB.w0 [[AInt 1]] []))
                (MemDB.set_cursor MemDB.w0 [] [AInt 1]) Hv1 eq_refl)).
  - exact (f_equal fst
             (proj2 (proj2 (proj2 (proj2 (proj2 (proj2 (proj2 (proj2 (proj2 (proj2
                (C5_errors_pass_through ClosedRows.backend))))))))))
                (mkResultRows (Some 0)) (mkState [] ClosedRows.closed_cursor [])
                [] ClosedRows.rows_are_closed ClosedRows.closed_cursor eq_refl)).
Defined.

(** When the proxied [Next] reports no row, the adapter answers [io.EOF]
    without consulting the cursor's [Err]. *)
Lemma Next_no_row {E} (B : Backend E) (r : resultRows) (dest : slice) (st : State E) w1 :
  rows_Next B (rr_rows r) (st_world st) = (false, w1) ->
  Next B r dest st
  = (Done (Some io_EOF), mkState (st_heap st) w1 (st_trace st ++ [EvRowsNext (rr_rows r)])).
Proof.
  intros Hn. destruct st as [h w t]. simpl in Hn. unfold Next.
  erewrite bind_done by apply call_eq. by rewrite Hn.
Qed.

(** C6, at a cursor whose connection broke while iterating: the proxied
    cursor is not exhausted (a row is still undelivered), its [Next] is
    false because of an error that [Err] reports, and the adapter's [Next]
    returns [io.EOF] instead of that error. *)
Theorem C6_next_reports_eof_for_failed_cursor :
  let r := mkResultRows (Some 0) in
  let st := MemDB.start [ANil] MemDB.broken in
  MemDB.pending MemDB.broken = [[AInt 2]] /\
  rows_Next MemDB.backend (rr_rows r) (st_world st) = (false, MemDB.broken) /\
  rows_Err MemDB.backend (rr_rows r) MemDB.broken = Some MemDB.conn_lost /\
  (Next MemDB.backend r (mkSlice 0 1) st).1 = Done (Some io_EOF) /\
  Some io_EOF <> Some MemDB.conn_lost.
Proof. repeat split; try reflexivity. discriminate. Qed.

(** C7, at [UPDATE t SET x=? WHERE id=?] with parameters [5, 1] and no hook
    configured: the direct call succeeds, the call through the adapter
    fails, because the proxied statement is handed one slice-valued
    parameter instead of the two integers. *)
Theorem C7_roundtrip_differs_from_direct_call :
  let st := MemDB.start [AInt 5; AInt 1] MemDB.w0 in
  (direct_roundtrip MemDB.backend "memdb" "file:t.db" MemDB.update_x (mkSlice 0 2) st).1
  = Done (Some (0, 1)%Z, None) /\
  (proxied_roundtrip MemDB.backend MemDB.plain "file:t.db" MemDB.update_x (mkSlice 0 2) st).1
  = Done (None, Some (errors_New "sql: converting argument: unsupported type")) /\
  st_trace (direct_roundtrip MemDB.backend "memdb" "file:t.db" MemDB.update_x
              (mkSlice 0 2) st).2
  = [EvSqlOpen "memdb" "file:t.db"; EvDBPrepare (Some 0) MemDB.update_x;
     EvStmtExec (Some 0) [AInt 5; AInt 1]] /\
  st_trace (proxied_roundtrip MemDB.backend MemDB.plain "file:t.db" MemDB.update_x
              (mkSlice 0 2) st).2
  = [EvSqlOpen "memdb" "file:t.db"; EvDBPrepare (Some 0) MemDB.update_x;
     EvStmtExec (Some 0) [ASlice 2 2]].
Proof. repeat split; reflexivity. Qed.

(** C8: when the hook stage succeeds (or no hook is configured) and the
    proxied prepare returns an error, [Prepare] returns that error together
    with a statement wrapper, not the nil interface; the wrapper holds the
    handle the failed prepare returned, which is nil for database/sql. *)
Theorem C8_prepare_driver_error_returns_wrapper {E} (B : Backend E)
    (c : connection E) (query : string) (s : State E)
    (query' : string) (w1 : E) (stmt : option sql_Stmt) (e : error) (w2 : E) :
  prepare_hook_stage (conn_driver c) query (st_world s) = ((query', None), w1) ->
  db_Prepare B (conn_db c) query' w1 = ((stmt, Some e), w2) ->
  exists wrapper,
    (Prepare B c query s).1 = Done (Some wrapper, Some e) /\
    stmt_stmt wrapper = stmt /\
    stmt_query wrapper = query' /\
    stmt_driver wrapper = conn_driver c.
Proof.
  intros Hs Hp. destruct s as [h w t]. simpl in Hs.
  rewrite Prepare_eq. rewrite Hs, Hp. by eexists.
Qed.

Lemma C8_prepare_driver_error_returns_wrapper_witness :
  exists wrapper,
    (Prepare MemDB.backend (mkConnection MemDB.plain (Some 0)) "SELECT 1"
             (MemDB.start [] MemDB.broken)).1 = Done (Some wrapper, Some MemDB.conn_lost) /\
    stmt_stmt wrapper = None /\
    stmt_query wrapper = "SELECT 1" /\
    stmt_driver wrapper = MemDB.plain.
Proof.
  apply (C8_prepare_driver_error_returns_wrapper MemDB.backend
           (mkConnection MemDB.plain (Some 0)) "SELECT 1" (MemDB.start [] MemDB.broken)
           "SELECT 1" MemDB.broken None MemDB.conn_lost MemDB.broken);
    reflexivity.
Defined.

(** C9 fails when an element of the destination points into the
    destination: the pointer is copied with the rest, [Scan] assigns through
    the copy, and the scanned value lands in the destination. *)
Lemma C9_self_pointing_dest_is_written :
  let r := mkResultRows (Some 0) in
  let dest := mkSlice 0 2 in
  let st := MemDB.start [APtr 1; ANil]
              (MemDB.set_cursor MemDB.w0 [[AInt 1; AInt 2]] []) in
  slice_valid (st_heap st) dest /\
  (rows_Next MemDB.backend (rr_rows r) (st_world st)).1 = true /\
  slice_read (st_heap st) dest = [APtr 1; ANil] /\
  slice_read (st_heap (Next MemDB.backend r dest st).2) dest = [APtr 1; AInt 1] /\
  slice_read (st_heap (Next MemDB.backend r dest st).2) dest
  <> slice_read (st_heap st) dest.
Proof.
  split; [unfold slice_valid; simpl; lia|].
  repeat split; try reflexivity. discriminate.
Qed.

(** C9, amended: when the proxied cursor has a row, the adapter writes to no
    cell of the caller's destination slice.  [Scan] is handed a slice of
    fresh cells holding copies of the destination's elements; when it is
    entered the destination holds what it held; and what [Next] leaves is
    what [Scan] leaves.  So, as long as [Scan] writes only through the
    pointers it is given and no element of the destination points into the
    destination, the destination holds after the call what it held before:
    the row is not delivered into it. *)
Theorem C9_next_leaves_dest_unchanged {E} (B : Backend E)
    (r : resultRows) (dest : slice) (st : State E) (w1 : E) :
  slice_valid (st_heap st) dest ->
  rows_Next B (rr_rows r) (st_world st) = (true, w1) ->
  let h := st_heap st in
  let targets := copy_of h dest in
  let h1 := h ++ slice_read h dest in
  (forall l, in_slice targets l -> length h <= l /\ ~ in_slice dest l) /\
  slice_read h1 targets = slice_read h dest /\
  slice_read h1 dest = slice_read h dest /\
  exists err h2 w2,
    rows_Scan B (rr_rows r) targets h1 w1 = (err, h2, w2) /\
    Next B r dest st
    = (Done err,
       mkState h2 w2
         (st_trace st ++ [EvRowsNext (rr_rows r);
                          EvRowsScan (rr_rows r) targets (slice_read h dest)])) /\
    (scan_writes_through_targets B ->
     (forall l, in_slice dest l -> APtr l ∉ slice_read h dest) ->
     slice_read h2 dest = slice_read h dest).
Proof.
  intros Hv Hn. destruct st as [h w t]. simpl in Hv, Hn. cbn [st_heap st_trace].
  cbv zeta.
  assert (Hfresh : forall l, in_slice (copy_of h dest) l ->
                             length h <= l /\ ~ in_slice dest l).
  { unfold in_slice, copy_of, slice_valid in *. simpl. lia. }
  split; [done|]. split; [by apply copy_of_read|].
  split; [by apply slice_read_app_l|].
  destruct (rows_Scan B (rr_rows r) (copy_of h dest) (h ++ slice_read h dest) w1)
    as [[err h2] w2] eqn:Hsc.
  exists err, h2, w2. split; [done|]. split.
  - rewrite Next_eq by done. cbv zeta. rewrite Hn. simpl. by rewrite Hsc.
  - intros Hframe Hnoptr.
    rewrite <- (slice_read_app_l h (slice_read h dest) dest Hv).
    apply slice_read_ext. intros l Hl.
    eapply Hframe; [exact Hsc| | |].
    + rewrite length_app. unfold in_slice, slice_valid in *. lia.
    + intros Hin. by apply Hfresh in Hin as [_ ?].
    + rewrite copy_of_read by done. by apply Hnoptr.
Qed.

Lemma C9_next_leaves_dest_unchanged_witness :
  let r := mkResultRows (Some 0) in
  let dest := mkSlice 0 2 in
  let st := MemDB.start [APtr 2; ANil; ANil]
              (MemDB.set_cursor MemDB.w0 [[AInt 1; AInt 2]] []) in
  slice_valid (st_heap st) dest /\
  (rows_Next MemDB.backend (rr_rows r) (st_world st)).1 = true /\
  st_heap (Next MemDB.backend r dest st).2 = [APtr 2; ANil; AInt 1; APtr 2; ANil] /\
  slice_read (st_heap (Next MemDB.backend r dest st).2) dest
  = slice_read (st_heap st) dest.
Proof.
  assert (Hv : slice_valid [APtr 2; ANil; ANil] (mkSlice 0 2)).
  { unfold slice_valid. simpl. lia. }
  split; [exact Hv|]. split; [reflexivity|]. split; [reflexivity|].
  destruct (C9_next_leaves_dest_unchanged MemDB.backend (mkResultRows (Some 0))
              (mkSlice 0 2)
              (MemDB.start [APtr 2; ANil; ANil]
                 (MemDB.set_cursor MemDB.w0 [[AInt 1; AInt 2]] []))
              (MemDB.set_cursor MemDB.w0 [] [AInt 1; AInt 2]) Hv eq_refl)
    as (_ & _ & _ & err & h2 & w2 & _ & Hnext & Hkeep).
  rewrite Hnext. apply Hkeep.
  - exact MemDB_scan_writes_through_targets.
  - intros l [_ Hl] Hin. simpl in Hl.
    apply elem_of_cons in Hin as [Heq|Hin]; [injection Heq as ->; lia|].
    apply elem_of_cons in Hin as [Heq|Hin]; [discriminate|].
    by apply elem_of_nil in Hin.
Defined.

(** C10: [NumInput] is -1 for every statement, whatever its text, so the
    parameter-count guard of database/sql accepts any number of parameters. *)
Theorem C10_NumInput_is_unknown {E} (s : statement E) :
  NumInput s = (-1)%Z /\
  forall nargs, argument_count_accepted (NumInput s) nargs = true.
Proof. split; [reflexivity|]. intros nargs. reflexivity. Qed.

(** ** Further properties, function by function *)

Lemma after_query_hook_texts {E} (d : Driver E) (query : string) (args : slice)
    (s : State E) :
  prepared_texts (st_trace (after_query_hook d query args s))
  = prepared_texts (st_trace s).
Proof.
  unfold after_query_hook. destruct (BeforeQueryHook d); [|done].
  simpl. by rewrite prepared_texts_app, app_nil_r.
Qed.

(** X1: on an allocated slice [castValues] returns, without panicking, a
    slice of the same length made of cells that did not exist before; those
    cells hold the elements of the argument, every cell that existed keeps
    its value, and no foreign code is called. *)
Theorem X1_castValues_copies_into_fresh_cells {E} (values : slice) (st : State E) :
  slice_valid (st_heap st) values ->
  exists result st',
    castValues values st = (Done result, st') /\
    sl_len result = sl_len values /\
    (forall l, in_slice result l -> length (st_heap st) <= l) /\
    slice_valid (st_heap st') result /\
    slice_read (st_heap st') result = slice_read (st_heap st) values /\
    (forall l, l < length (st_heap st) -> st_heap st' !! l = st_heap st !! l) /\
    st_world st' = st_world st /\
    st_trace st' = st_trace st.
Proof.
  intros Hv. destruct st as [h w t]. simpl in Hv.
  rewrite castValues_spec by done. eexists _, _. split; [reflexivity|].
  cbn [st_heap st_world st_trace sl_len]. repeat split.
  - unfold in_slice in *. simpl in *. lia.
  - unfold slice_valid. simpl.
    rewrite length_app, slice_read_length by done. lia.
  - by apply (copy_of_read h values).
  - intros l Hl. by apply lookup_app_l.
Qed.

Lemma X1_castValues_copies_into_fresh_cells_witness :
  exists result st',
    castValues (mkSlice 1 2) (MemDB.start [ANil; AInt 5; AString "a"] MemDB.w0)
    = (Done result, st') /\
    sl_len result = 2 /\
    (forall l, in_slice result l -> 3 <= l) /\
    slice_valid (st_heap st') result /\
    slice_read (st_heap st') result = [AInt 5; AString "a"] /\
    (forall l, l < 3 -> st_heap st' !! l = [ANil; AInt 5; AString "a"] !! l) /\
    st_world st' = MemDB.w0 /\
    st_trace st' = [].
Proof.
  apply (X1_castValues_copies_into_fresh_cells (mkSlice 1 2)
           (MemDB.start [ANil; AInt 5; AString "a"] MemDB.w0)).
  unfold slice_valid. simpl. lia.
Defined.

(** X2: two calls of [castValues] on the same slice give two slices that
    share no cell, both holding the elements of the argument; the argument
    itself is as it was. *)
Theorem X2_castValues_twice_gives_disjoint_copies {E} (values : slice) (st : State E) :
  slice_valid (st_heap st) values ->
  exists r1 r2 st',
    ((r1 ← castValues values; r2 ← castValues values; mret (r1, r2))
       : M E (slice * slice)) st
    = (Done (r1, r2), st') /\
    (forall l, in_slice r1 l -> ~ in_slice r2 l) /\
    slice_read (st_heap st') r1 = slice_read (st_heap st) values /\
    slice_read (st_heap st') r2 = slice_read (st_heap st) values /\
    slice_read (st_heap st') values = slice_read (st_heap st) values.
Proof.
  intros Hv. destruct st as [h w t]. simpl in Hv.
  set (vs := slice_read h values).
  assert (Hlen : length vs = sl_len values) by by apply slice_read_length.
  assert (Hv1 : slice_valid (h ++ vs) values).
  { unfold slice_valid in *. rewrite length_app. lia. }
  assert (Hrd1 : slice_read (h ++ vs) values = vs) by by apply slice_read_app_l.
  exists (copy_of h values), (copy_of (h ++ vs) values), (mkState ((h ++ vs) ++ vs) w t).
  split; [|split; [|split; [|split]]].
  - erewrite bind_done by (by apply castValues_spec).
    erewrite bind_done by (by apply castValues_spec).
    fold vs. by rewrite Hrd1.
  - unfold in_slice, copy_of. simpl. rewrite length_app. lia.
  - cbn [st_heap]. rewrite slice_read_app_l.
    + by apply copy_of_read.
    + unfold slice_valid, copy_of. simpl. rewrite length_app. lia.
  - cbn [st_heap]. pose proof (copy_of_read (h ++ vs) values Hv1) as Hc.
    by rewrite Hrd1 in Hc.
  - cbn [st_heap]. rewrite slice_read_app_l by done. done.
Qed.

Lemma X2_castValues_twice_gives_disjoint_copies_witness :
  exists r1 r2 st',
    ((r1 ← castValues (mkSlice 0 2); r2 ← castValues (mkSlice 0 2); mret (r1, r2))
       : M MemDB.world (slice * slice)) (MemDB.start [AInt 5; AInt 1] MemDB.w0)
    = (Done (r1, r2), st') /\
    (forall l, in_slice r1 l -> ~ in_slice r2 l) /\
    slice_read (st_heap st') r1 = [AInt 5; AInt 1] /\
    slice_read (st_heap st') r2 = [AInt 5; AInt 1] /\
    slice_read (st_heap st') (mkSlice 0 2) = [AInt 5; AInt 1].
Proof.
  apply (X2_castValues_twice_gives_disjoint_copies (mkSlice 0 2)
           (MemDB.start [AInt 5; AInt 1] MemDB.w0)).
  unfold slice_valid. simpl. lia.
Defined.

(** X3: without a pre-prepare hook, [Prepare] makes one foreign call, the
    proxied prepare with the caller's text, returns its error and a
    statement holding its handle and the caller's text, and leaves the heap
    alone. *)
Theorem X3_prepare_without_hook_forwards_text {E} (B : Backend E)
    (c : connection E) (query : string) (st : State E) :
  BeforePrepareHook (conn_driver c) = None ->
  let p := db_Prepare B (conn_db c) query (st_world st) in
  Prepare B c query st
  = (Done (Some (mkStatement (conn_driver c) p.1.1 query), p.1.2),
     mkState (st_heap st) p.2 (st_trace st ++ [EvDBPrepare (conn_db c) query])).
Proof.
  intros Hno. destruct st as [h w t]. cbn [st_heap st_world st_trace]. cbv zeta.
  rewrite Prepare_eq. unfold prepare_hook_stage, prepare_hook_events. rewrite Hno.
  destruct (db_Prepare B (conn_db c) query w) as [[stmt err] w2]. simpl.
  by rewrite app_nil_r.
Qed.

Lemma X3_prepare_without_hook_forwards_text_witness :
  Prepare MemDB.backend (mkConnection MemDB.plain (Some 0)) "SELECT * FROM t"
          (MemDB.start [] MemDB.w0)
  = (Done (Some (mkStatement MemDB.plain (Some 0) "SELECT * FROM t"), None),
     mkState [] (MemDB.set_prepared MemDB.w0 ["SELECT * FROM t"])
             ([] ++ [EvDBPrepare (Some 0) "SELECT * FROM t"])).
Proof.
  apply (X3_prepare_without_hook_forwards_text MemDB.backend
           (mkConnection MemDB.plain (Some 0)) "SELECT * FROM t"
           (MemDB.start [] MemDB.w0)).
  reflexivity.
Defined.

(** X4: [Prepare] followed by [Exec] on the statement it returned without
    error: the text the pre-execute hook is applied to is the text the
    proxied prepare received (the rewritten one when a pre-prepare hook is
    configured), and the handle passed on is the one the proxied prepare
    returned. *)
Theorem X4_exec_hook_sees_the_prepared_text {E} (B : Backend E)
    (c : connection E) (query : string) (st : State E)
    (wrapper : statement E) (st1 : State E)
    (values : slice) (hook : string -> slice -> heap -> E -> heap * E) :
  Prepare B c query st = (Done (Some wrapper, None), st1) ->
  stmt_stmt wrapper <> None ->
  BeforeQueryHook (conn_driver c) = Some hook ->
  slice_valid (st_heap st1) values ->
  let vals := slice_read (st_heap st1) values in
  let args := copy_of (st_heap st1) values in
  let hk := hook (stmt_query wrapper) args (st_heap st1 ++ vals) (st_world st1) in
  let ex := stmt_Exec B (stmt_stmt wrapper) (variadic_of_slice args) hk.1 hk.2 in
  prepared_texts (st_trace st1) = prepared_texts (st_trace st) ++ [stmt_query wrapper] /\
  last (st_trace st1) = Some (EvDBPrepare (conn_db c) (stmt_query wrapper)) /\
  (exists w, db_Prepare B (conn_db c) (stmt_query wrapper) w
             = ((stmt_stmt wrapper, None), st_world st1)) /\
  Exec B wrapper values st1
  = (Done ex.1.1,
     mkState ex.1.2 ex.2
       (st_trace st1
        ++ [EvBeforeQueryHook (stmt_query wrapper) args vals;
            EvStmtExec (stmt_stmt wrapper) (variadic_of_slice args)])).
Proof.
  intros Hp _ Hhook Hv. destruct st as [h w t].
  rewrite Prepare_eq in Hp.
  destruct (prepare_hook_stage (conn_driver c) query w) as [[text [e|]] w1];
    [discriminate|].
  destruct (db_Prepare B (conn_db c) text w1) as [[stmt err'] w2] eqn:Hdb.
  cbv zeta in Hp. inversion Hp; subst. clear Hp.
  cbn [st_heap st_trace st_world stmt_query stmt_stmt] in *. cbv zeta.
  split; [|split; [|split]].
  - rewrite !prepared_texts_app. unfold prepare_hook_events.
    destruct (BeforePrepareHook (conn_driver c)); simpl; by rewrite app_nil_r.
  - by rewrite last_snoc.
  - by exists w1.
  - rewrite Exec_eq by done. cbv zeta. unfold after_query_hook.
    cbn [stmt_driver stmt_query stmt_stmt]. rewrite Hhook.
    cbn [st_heap st_world st_trace]. rewrite call_heap_eq.
    rewrite copy_of_read by done. by rewrite <- !app_assoc.
Qed.

Lemma X4_exec_hook_sees_the_prepared_text_witness :
  let c := mkConnection MemDB.hooked (Some 0) in
  let st := MemDB.start [AInt 7] MemDB.w0 in
  let wrapper := mkStatement MemDB.hooked (Some 0) "SELECT 1" in
  let st1 := (Prepare MemDB.backend c "SELECT * FROM t" st).2 in
  (Prepare MemDB.backend c "SELECT * FROM t" st).1 = Done (Some wrapper, None) /\
  prepared_texts (st_trace st1) = ["SELECT 1"] /\
  MemDB.hooklog (st_world (Exec MemDB.backend wrapper (mkSlice 0 1) st1).2)
  = [("SELECT 1", [AInt 7])].
Proof.
  assert (Hv : slice_valid [AInt 7] (mkSlice 0 1)) by (unfold slice_valid; simpl; lia).
  split; [reflexivity|].
  pose proof (X4_exec_hook_sees_the_prepared_text MemDB.backend
                (mkConnection MemDB.hooked (Some 0)) "SELECT * FROM t"
                (MemDB.start [AInt 7] MemDB.w0)
                (mkStatement MemDB.hooked (Some 0) "SELECT 1")
                (Prepare MemDB.backend (mkConnection MemDB.hooked (Some 0))
                         "SELECT * FROM t" (MemDB.start [AInt 7] MemDB.w0)).2
                (mkSlice 0 1) MemDB.record_query
                eq_refl ltac:(discriminate) eq_refl Hv) as (Htexts & _ & _ & Hexec).
  split; [exact Htexts|].
  exact (f_equal (fun r => MemDB.hooklog (st_world r.2)) Hexec).
Defined.

(** X5: on a statement whose handle is not nil, [Query] returns a cursor
    wrapper, never the nil interface, also when the proxied query reports an
    error; the wrapper holds the handle the one proxied call returned, the
    error is that call's, and the state left is the one it left. *)
Theorem X5_query_always_returns_a_wrapper {E} (B : Backend E)
    (s : statement E) (values : slice) (st : State E) :
  stmt_stmt s <> None ->
  slice_valid (st_heap st) values ->
  let args := copy_of (st_heap st) values in
  let s2 := after_query_hook (stmt_driver s) (stmt_query s) args
              (mkState (st_heap st ++ slice_read (st_heap st) values)
                       (st_world st) (st_trace st)) in
  let qu := stmt_Query B (stmt_stmt s) (variadic_of_slice args)
              (st_heap s2) (st_world s2) in
  Query B s values st
  = (Done (Some (mkResultRows qu.1.1.1), qu.1.1.2),
     mkState qu.1.2 qu.2
       (st_trace s2 ++ [EvStmtQuery (stmt_stmt s) (variadic_of_slice args)])) /\
  forall err, (Query B s values st).1 <> Done (None, err).
Proof.
  intros _ Hv. destruct st as [h w t]. simpl in Hv.
  cbn [st_heap st_world st_trace]. cbv zeta.
  rewrite Query_eq by done. cbv zeta. split; [done|].
  intros err. discriminate.
Qed.

Lemma X5_query_always_returns_a_wrapper_witness :
  let s := mkStatement MemDB.plain (Some 0) "SELECT 1" in
  let st := MemDB.start [] MemDB.broken in
  Query MemDB.backend s (mkSlice 0 0) st
  = (Done (Some (mkResultRows None), Some MemDB.conn_lost),
     mkState [] MemDB.broken [EvStmtQuery (Some 0) [ASlice 0 0]]) /\
  forall err, (Query MemDB.backend s (mkSlice 0 0) st).1 <> Done (None, err).
Proof.
  apply (X5_query_always_returns_a_wrapper MemDB.backend
           (mkStatement MemDB.plain (Some 0) "SELECT 1") (mkSlice 0 0)
           (MemDB.start [] MemDB.broken)).
  - discriminate.
  - unfold slice_valid. simpl. lia.
Defined.

(** X6: [Begin] makes one foreign call, the proxied begin, and returns its
    error; the transaction it returns is never the nil interface, it is the
    proxied pointer wrapped in an interface, nil pointer included. *)
Theorem X6_begin_never_returns_the_nil_interface {E} (B : Backend E)
    (c : connection E) (st : State E) :
  let b := db_Begin B (conn_db c) (st_world st) in
  Begin B c st
  = (Done (Some b.1.1, b.1.2),
     mkState (st_heap st) b.2 (st_trace st ++ [EvDBBegin (conn_db c)])) /\
  forall err, (Begin B c st).1 <> Done (None, err).
Proof.
  destruct st as [h w t]. cbv zeta. rewrite Begin_eq. split; [done|].
  intros err. discriminate.
Qed.

(** X7: when the proxied cursor reports no row, [Next] returns [io.EOF]
    whatever the destination holds; the proxied [Next] is the only foreign
    code called ([Scan] is not), and no cell is allocated or written. *)
Theorem X7_next_without_row_is_eof {E} (B : Backend E)
    (r : resultRows) (dest : slice) (st : State E) (w1 : E) :
  rows_Next B (rr_rows r) (st_world st) = (false, w1) ->
  Next B r dest st
  = (Done (Some io_EOF),
     mkState (st_heap st) w1 (st_trace st ++ [EvRowsNext (rr_rows r)])).
Proof.
  intros Hn. destruct st as [h w t]. simpl in Hn. unfold Next.
  erewrite bind_done by apply call_eq. by rewrite Hn.
Qed.

Lemma X7_next_without_row_is_eof_witness :
  Next MemDB.backend (mkResultRows (Some 0)) (mkSlice 0 1) (MemDB.start [ANil] MemDB.w0)
  = (Done (Some io_EOF), mkState [ANil] MemDB.w0 ([] ++ [EvRowsNext (Some 0)])).
Proof.
  apply (X7_next_without_row_is_eof MemDB.backend (mkResultRows (Some 0)) (mkSlice 0 1)
           (MemDB.start [ANil] MemDB.w0) MemDB.w0).
  reflexivity.
Defined.

(** X8: the slice shown to the pre-execute hook is the slice passed on to
    the proxied statement, and the proxied statement runs on the heap and
    world the hook left.  The hook is therefore not limited to observing:
    what it writes into the slice is what the proxied statement reads.  The
    slice it is shown shares no cell with the caller's slice. *)
Theorem X8_driver_sees_what_the_hook_left {E} (B : Backend E)
    (s : statement E) (values : slice) (st : State E)
    (hook : string -> slice -> heap -> E -> heap * E) :
  BeforeQueryHook (stmt_driver s) = Some hook ->
  slice_valid (st_heap st) values ->
  let args := copy_of (st_heap st) values in
  let h1 := st_heap st ++ slice_read (st_heap st) values in
  let hk := hook (stmt_query s) args h1 (st_world st) in
  let ex := stmt_Exec B (stmt_stmt s) (variadic_of_slice args) hk.1 hk.2 in
  let qu := stmt_Query B (stmt_stmt s) (variadic_of_slice args) hk.1 hk.2 in
  slice_read h1 args = slice_read (st_heap st) values /\
  slice_read h1 values = slice_read (st_heap st) values /\
  (forall l, in_slice args l -> ~ in_slice values l) /\
  (Exec B s values st).1 = Done ex.1.1 /\
  st_heap (Exec B s values st).2 = ex.1.2 /\
  st_world (Exec B s values st).2 = ex.2 /\
  (Query B s values st).1 = Done (Some (mkResultRows qu.1.1.1), qu.1.1.2) /\
  st_heap (Query B s values st).2 = qu.1.2 /\
  st_world (Query B s values st).2 = qu.2.
Proof.
  intros Hhook Hv. destruct st as [h w t]. simpl in Hv.
  cbn [st_heap st_world]. cbv zeta.
  rewrite Exec_eq, Query_eq by done. cbv zeta. unfold after_query_hook.
  rewrite Hhook. cbn [st_heap st_world st_trace]. rewrite call_heap_eq.
  split; [by apply copy_of_read|]. split; [by apply slice_read_app_l|].
  split; [|done].
  unfold in_slice, copy_of, slice_valid in *. simpl. lia.
Qed.

Lemma X8_driver_sees_what_the_hook_left_witness :
  let s := mkStatement MemHooks.redacting (Some 0) MemDB.update_x in
  let st := MemDB.start [AInt 5; AInt 1] (MemDB.set_prepared MemDB.w0 [MemDB.update_x]) in
  slice_valid (st_heap st) (mkSlice 0 2) /\
  st_heap (Exec MemDB.backend s (mkSlice 0 2) st).2 = [AInt 5; AInt 1; ANil; AInt 1] /\
  (Exec MemDB.backend s (mkSlice 0 2) st).1
  = Done (stmt_Exec MemDB.backend (Some 0) [ASlice 2 2] [AInt 5; AInt 1; ANil; AInt 1]
                    (st_world st)).1.1.
Proof.
  assert (Hv : slice_valid [AInt 5; AInt 1] (mkSlice 0 2)).
  { unfold slice_valid. simpl. lia. }
  split; [exact Hv|]. split; [reflexivity|].
  exact (proj1 (proj2 (proj2 (proj2
           (X8_driver_sees_what_the_hook_left MemDB.backend
              (mkStatement MemHooks.redacting (Some 0) MemDB.update_x) (mkSlice 0 2)
              (MemDB.start [AInt 5; AInt 1] (MemDB.set_prepared MemDB.w0 [MemDB.update_x]))
              MemHooks.redact_first eq_refl Hv))))).
Defined.

(** X9: without a pre-execute hook, [Exec] and [Query] each make exactly one
    foreign call, the proxied one, on the caller's heap extended by the
    copies; the caller's slice reads as before when that call is made. *)
Theorem X9_exec_without_hook_calls_only_the_driver {E} (B : Backend E)
    (s : statement E) (values : slice) (st : State E) :
  BeforeQueryHook (stmt_driver s) = None ->
  slice_valid (st_heap st) values ->
  let args := copy_of (st_heap st) values in
  let h1 := st_heap st ++ slice_read (st_heap st) values in
  let ex := stmt_Exec B (stmt_stmt s) (variadic_of_slice args) h1 (st_world st) in
  let qu := stmt_Query B (stmt_stmt s) (variadic_of_slice args) h1 (st_world st) in
  slice_read h1 values = slice_read (st_heap st) values /\
  Exec B s values st
  = (Done ex.1.1,
     mkState ex.1.2 ex.2 (st_trace st ++ [EvStmtExec (stmt_stmt s) (variadic_of_slice args)])) /\
  Query B s values st
  = (Done (Some (mkResultRows qu.1.1.1), qu.1.1.2),
     mkState qu.1.2 qu.2 (st_trace st ++ [EvStmtQuery (stmt_stmt s) (variadic_of_slice args)])).
Proof.
  intros Hno Hv. destruct st as [h w t]. simpl in Hv.
  cbn [st_heap st_world st_trace]. cbv zeta.
  rewrite Exec_eq, Query_eq by done. cbv zeta. unfold after_query_hook.
  rewrite Hno. cbn [st_heap st_world st_trace]. rewrite call_heap_eq.
  split; [by apply slice_read_app_l|]. by split.
Qed.

Lemma X9_exec_without_hook_calls_only_the_driver_witness :
  let s := mkStatement MemDB.plain (Some 0) "SELECT 1" in
  let st := MemDB.start [] (MemDB.set_prepared MemDB.w0 ["SELECT 1"]) in
  slice_valid (st_heap st) (mkSlice 0 0) /\
  st_trace (Exec MemDB.backend s (mkSlice 0 0) st).2 = [] ++ [EvStmtExec (Some 0) [ASlice 0 0]].
Proof.
  assert (Hv : slice_valid [] (mkSlice 0 0)).
  { unfold slice_valid. simpl. lia. }
  split; [exact Hv|].
  exact (f_equal (fun r => st_trace r.2)
           (proj1 (proj2
              (X9_exec_without_hook_calls_only_the_driver MemDB.backend
                 (mkStatement MemDB.plain (Some 0) "SELECT 1") (mkSlice 0 0)
                 (MemDB.start [] (MemDB.set_prepared MemDB.w0 ["SELECT 1"]))
                 eq_refl Hv)))).
Defined.

(** X10: only [Prepare] reaches the proxied prepare: [Exec], [Query], [Next],
    [Columns], [Begin] and the three [Close] functions never call it, so a
    statement is prepared once however often it is run. *)
Theorem X10_only_prepare_prepares {E} (B : Backend E) :
  (forall s values (st : State E),
      slice_valid (st_heap st) values ->
      prepared_texts (st_trace (Exec B s values st).2) = prepared_texts (st_trace st) /\
      prepared_texts (st_trace (Query B s values st).2) = prepared_texts (st_trace st)) /\
  (forall r dest (st : State E),
      slice_valid (st_heap st) dest ->
      prepared_texts (st_trace (Next B r dest st).2) = prepared_texts (st_trace st)) /\
  (forall r (st : State E),
      prepared_texts (st_trace (Columns B r st).2) = prepared_texts (st_trace st) /\
      prepared_texts (st_trace (resultRows_Close B r st).2) = prepared_texts (st_trace st)) /\
  (forall s (st : State E),
      prepared_texts (st_trace (statement_Close B s st).2) = prepared_texts (st_trace st)) /\
  (forall c (st : State E),
      prepared_texts (st_trace (Begin B c st).2) = prepared_texts (st_trace st) /\
      prepared_texts (st_trace (connection_Close B c st).2) = prepared_texts (st_trace st)).
Proof.
  repeat apply conj.
  - intros s values [h w t] Hv. simpl in Hv.
    rewrite Exec_eq, Query_eq by done. cbv zeta.
    pose proof (after_query_hook_texts (stmt_driver s) (stmt_query s)
                  (copy_of h values) (mkState (h ++ slice_read h values) w t)) as Hk.
    destruct (after_query_hook _ _ _ _) as [h2 w2 t2]. rewrite call_heap_eq.
    simpl in *. by rewrite !prepared_texts_app, Hk, !app_nil_r.
  - intros r dest [h w t] Hv. simpl in Hv. rewrite Next_eq by done. cbv zeta.
    destruct (rows_Next B (rr_rows r) w) as [[|] w1]; simpl;
      by rewrite prepared_texts_app, app_nil_r.
  - intros r [h w t]. rewrite Columns_eq. unfold resultRows_Close. rewrite call_eq.
    simpl. by rewrite !prepared_texts_app, !app_nil_r.
  - intros s [h w t]. unfold statement_Close. rewrite call_eq. simpl.
    by rewrite prepared_texts_app, app_nil_r.
  - intros c [h w t]. rewrite Begin_eq. unfold connection_Close. rewrite call_eq.
    simpl. by rewrite !prepared_texts_app, !app_nil_r.
Qed.

Lemma X10_only_prepare_prepares_witness :
  let s := mkStatement MemDB.logging (Some 0) MemDB.update_x in
  let st := mkState [AInt 5; AInt 1] (MemDB.set_prepared MemDB.w0 [MemDB.update_x])
              [EvDBPrepare (Some 0) MemDB.update_x] in
  prepared_texts (st_trace (Exec MemDB.backend s (mkSlice 0 2) st).2) = [MemDB.update_x] /\
  prepared_texts (st_trace (Query MemDB.backend s (mkSlice 0 2) st).2) = [MemDB.update_x].
Proof.
  apply (proj1 (X10_only_prepare_prepares MemDB.backend)
           (mkStatement MemDB.logging (Some 0) MemDB.update_x) (mkSlice 0 2)
           (mkState [AInt 5; AInt 1] (MemDB.set_prepared MemDB.w0 [MemDB.update_x])
              [EvDBPrepare (Some 0) MemDB.update_x])).
  unfold slice_valid. simpl. lia.
Defined.

(** X11: with no pre-prepare hook, whenever the proxied open or the proxied
    prepare reports an error, going through the adapter and calling the
    proxied driver directly end alike: same result, same heap, same world,
    same foreign calls. *)
Theorem X11_roundtrip_agrees_when_open_or_prepare_fails {E} (B : Backend E)
    (d : Driver E) (dataSource query : string) (values : slice) (st : State E) :
  BeforePrepareHook d = None ->
  (let o := sql_Open B (ProxiedDriverName d) dataSource (st_world st) in
   o.1.2 <> None \/ (db_Prepare B o.1.1 query o.2).1.2 <> None) ->
  proxied_roundtrip B d dataSource query values st
  = direct_roundtrip B (ProxiedDriverName d) dataSource query values st.
Proof.
  intros Hno Hfail. destruct st as [h w t]. cbn [st_world] in Hfail. cbv zeta in Hfail.
  unfold proxied_roundtrip, direct_roundtrip, mbind, M_bind.
  rewrite Open_eq, call_eq. cbv zeta.
  destruct (sql_Open B (ProxiedDriverName d) dataSource w) as [[db [e|]] w1];
    cbn [fst snd] in *; [done|].
  rewrite Prepare_eq, call_eq.
  unfold prepare_hook_stage, prepare_hook_events. cbn [conn_driver conn_db].
  rewrite Hno, app_nil_r.
  destruct (db_Prepare B db query w1) as [[stmt [e|]] w2]; cbn [fst snd] in *; [done|].
  destruct Hfail as [Hf|Hf]; by destruct Hf.
Qed.

Lemma X11_roundtrip_agrees_when_open_or_prepare_fails_witness :
  proxied_roundtrip MemDB.backend MemDB.plain "file:t.db" "SELECT 1" (mkSlice 0 0)
                    (MemDB.start [] MemDB.broken)
  = direct_roundtrip MemDB.backend "memdb" "file:t.db" "SELECT 1" (mkSlice 0 0)
                     (MemDB.start [] MemDB.broken).
Proof.
  apply (X11_roundtrip_agrees_when_open_or_prepare_fails MemDB.backend MemDB.plain
           "file:t.db" "SELECT 1" (mkSlice 0 0) (MemDB.start [] MemDB.broken)).
  - reflexivity.
  - right. discriminate.
Defined.

(** X12: on a cursor whose handle is not nil, [Columns] panics exactly when
    the proxied [Columns] reports an error, and then with that error;
    otherwise it returns the proxied column names as they are.  Either way
    it makes one foreign call and leaves the heap alone. *)
Theorem X12_columns_panics_iff_proxied_error {E} (B : Backend E)
    (r : resultRows) (st : State E) :
  rr_rows r <> None ->
  let c := rows_Columns B (rr_rows r) (st_world st) in
  (forall e, (Columns B r st).1 = Panicked e <-> c.1.2 = Some e) /\
  (forall cols, (Columns B r st).1 = Done cols <-> c.1.2 = None /\ c.1.1 = cols) /\
  (Columns B r st).2 = mkState (st_heap st) c.2 (st_trace st ++ [EvRowsColumns (rr_rows r)]).
Proof.
  intros _. destruct st as [h w t]. cbn [st_heap st_world st_trace]. cbv zeta.
  rewrite Columns_eq. cbv zeta. cbn [fst snd].
  destruct (rows_Columns B (rr_rows r) w) as [[cols [e|]] w1]; cbn [fst snd].
  - repeat split; try congruence; try discriminate. by intros [? _].
  - repeat split; try congruence; try discriminate. by intros [_ ->].
Qed.

Lemma X12_columns_panics_iff_proxied_error_witness :
  let r := mkResultRows (Some 0) in
  (Columns ClosedRows.backend r (mkState [] ClosedRows.open_cursor [])).1 = Done ["value"] /\
  (Columns ClosedRows.backend r (mkState [] ClosedRows.closed_cursor [])).1
  = Panicked ClosedRows.rows_are_closed.
Proof.
  split.
  - apply (proj1 (proj2 (X12_columns_panics_iff_proxied_error ClosedRows.backend
                           (mkResultRows (Some 0))
                           (mkState [] ClosedRows.open_cursor []) ltac:(discriminate)))
             ["value"]).
    split; reflexivity.
  - apply (proj1 (X12_columns_panics_iff_proxied_error ClosedRows.backend
                    (mkResultRows (Some 0))
                    (mkState [] ClosedRows.closed_cursor []) ltac:(discriminate))
             ClosedRows.rows_are_closed).
    reflexivity.
Defined.

(** X13: [Open] makes one foreign call, [sql.Open] with the configured
    driver name and the data source as given.  It returns a connection
    exactly when that call reports no error, and the connection then holds
    the driver it was opened on and the handle [sql.Open] returned. *)
Theorem X13_open_wraps_the_proxied_handle {E} (B : Backend E)
    (d : Driver E) (dataSource : string) (st : State E) :
  let o := sql_Open B (ProxiedDriverName d) dataSource (st_world st) in
  (forall c err, (Open B d dataSource st).1 = Done (Some c, err) <->
                 o.1.2 = None /\ err = None /\ c = mkConnection d o.1.1) /\
  (forall err, (Open B d dataSource st).1 = Done (None, err) <->
               o.1.2 <> None /\ err = o.1.2) /\
  (Open B d dataSource st).2
  = mkState (st_heap st) o.2 (st_trace st ++ [EvSqlOpen (ProxiedDriverName d) dataSource]).
Proof.
  destruct st as [h w t]. cbn [st_heap st_world st_trace]. cbv zeta.
  rewrite Open_eq. cbv zeta. cbn [fst snd].
  destruct (sql_Open B (ProxiedDriverName d) dataSource w) as [[db [e|]] w1]; cbn [fst snd].
  - repeat split; try congruence; try discriminate.
    + by intros [? _].
    + intros [_ ->]. done.
  - repeat split; try congruence; try discriminate.
    + intros (_ & -> & ->). done.
    + by intros [? _].
Qed.
